(** * cimtoolkit: the CIM container codec of [cimpng.py]

    A shallow embedding of the pixel converters, of [read_cim] and of
    [write_cim], and the properties of the codec that follow from them.

    Python values are modelled as the code has them: an [int] is a [Z]
    (Python integers do not wrap), a [bytes] object is a [list byte], an
    exception is a value of [exn] carried by the [result] monad.  The two
    external libraries are kept at the boundary of the model: [zlib] is a
    pair of section variables, and PIL is the record [Image] that
    [write_cim] reads and the call [Image.frombytes] that [read_cim]
    ends with.

    A [str] is a [string] whose characters are its code points, so the
    strings of [ask_for_format] and [main] are those with code points
    below 256.  [main] is given as the sequence of steps it goes through
    when no call raises and the standard input provides the lines asked
    for. *)

From Stdlib Require Import Strings.String Strings.Ascii.
From Stdlib Require Import ZArith List Lia Bool Arith.
From Stdlib Require Import Strings.Byte.
Import ListNotations.

Local Open Scope Z_scope.

(** ** Python values and exceptions *)

Inductive exn : Type :=
| IndexError          (* [data[i]] with [i] out of range *)
| ValueError          (* [bytes([v, ...])] with [v] outside [range(256)] *)
| ZeroDivisionError   (* [a // 0] *)
| StructError.        (* [struct.pack] / [struct.unpack] *)

Inductive result (A : Type) : Type :=
| Ok (a : A)
| Raise (e : exn).

Arguments Ok {A} a.
Arguments Raise {A} e.

Definition bind {A B : Type} (m : result A) (k : A -> result B) : result B :=
  match m with
  | Ok a => k a
  | Raise e => Raise e
  end.

Notation "x <- m ;; k" := (bind m (fun x => k))
  (at level 61, m at next level, right associativity).

Definition Z_of_byte (b : byte) : Z := Z.of_N (Byte.to_N b).

Definition byte_of_Z (z : Z) : byte :=
  match Byte.of_N (Z.to_N (z mod 256)) with
  | Some b => b
  | None => x00
  end.

Definition in_byte_range (z : Z) : bool := (0 <=? z) && (z <? 256).

(** [bytes([v0, v1, ...])]: every value must be in [range(0, 256)]. *)
Definition bytes_of_ints (l : list Z) : result (list byte) :=
  if forallb in_byte_range l then Ok (map byte_of_Z l) else Raise ValueError.

(** [data[i]] for a non-negative index. *)
Definition getitem (data : list byte) (i : nat) : result Z :=
  match nth_error data i with
  | Some b => Ok (Z_of_byte b)
  | None => Raise IndexError
  end.

(** [range(0, stop, step)]: the indices [0, step, 2*step, ...] below [stop];
    there are [ceil(stop / step)] of them. *)
Definition range (stop step : nat) : list nat :=
  map (fun k => (k * step)%nat) (seq 0 ((stop + step - 1) / step)).

(** [len(data)] *)
Definition len (data : list byte) : Z := Z.of_nat (length data).

(** [data[:k]]: a negative [k] counts from the end. *)
Definition slice_to (data : list byte) (k : Z) : list byte :=
  if k <? 0 then firstn (Z.to_nat (len data + k)) data
  else firstn (Z.to_nat k) data.

(** [data[k:]] for a non-negative constant [k]. *)
Definition slice_from (data : list byte) (k : nat) : list byte := skipn k data.

(** [a // b] *)
Definition floordiv (a b : Z) : result Z :=
  if b =? 0 then Raise ZeroDivisionError else Ok (a / b).

(** ** Pixel converters *)

(** Body of the loop of [convert_rgb565_to_rgba] for one index [i]. *)
Definition rgb565_pixel (data : list byte) (i : nat) : result (list byte) :=
  hi <- getitem data i ;;
  lo <- getitem data (i + 1) ;;
  let val := Z.lor (Z.shiftl hi 8) lo in
  let r := Z.land (Z.shiftr val 11) 31 in
  let g := Z.land (Z.shiftr val 5) 63 in
  let b := Z.land val 31 in
  let r := Z.lor (Z.shiftl r 3) (Z.shiftr r 2) in
  let g := Z.lor (Z.shiftl g 2) (Z.shiftr g 4) in
  let b := Z.lor (Z.shiftl b 3) (Z.shiftr b 2) in
  bytes_of_ints [r; g; b; 255].

(** A [for i in idxs: pixels.append(body(i))] loop. *)
Fixpoint for_append {A : Type} (body : A -> result (list byte)) (idxs : list A)
    (pixels : list (list byte)) : result (list (list byte)) :=
  match idxs with
  | [] => Ok pixels
  | i :: rest =>
      px <- body i ;;
      for_append body rest (pixels ++ [px])
  end.

Definition convert_rgb565_to_rgba (data : list byte) : result (list byte) :=
  pixels <- for_append (rgb565_pixel data) (range (length data) 2) [] ;;
  Ok (concat pixels).

(** The generator [bytes([v, v, v, 255]) for v in data]. *)
Definition grayscale_pixel (b : byte) : result (list byte) :=
  let v := Z_of_byte b in bytes_of_ints [v; v; v; 255].

Definition convert_grayscale_to_rgba (data : list byte) : result (list byte) :=
  pixels <- for_append grayscale_pixel data [] ;;
  Ok (concat pixels).

(** Body of the loop of [convert_rgb888_to_rgba] for one index [i]. *)
Definition rgb888_pixel (data : list byte) (i : nat) : result (list byte) :=
  r <- getitem data i ;;
  g <- getitem data (i + 1) ;;
  b <- getitem data (i + 2) ;;
  bytes_of_ints [r; g; b; 255].

Definition convert_rgb888_to_rgba (data : list byte) : result (list byte) :=
  pixels <- for_append (rgb888_pixel data) (range (length data) 3) [] ;;
  Ok (concat pixels).

(** ** Container codec *)

Definition be32 (b0 b1 b2 b3 : byte) : Z :=
  ((Z_of_byte b0 * 256 + Z_of_byte b1) * 256 + Z_of_byte b2) * 256
  + Z_of_byte b3.

(** [struct.unpack(">III", data)]: exactly twelve bytes, three big-endian
    unsigned 32-bit integers. *)
Definition struct_unpack_III (data : list byte) : result (Z * Z * Z) :=
  match data with
  | [a0; a1; a2; a3; b0; b1; b2; b3; c0; c1; c2; c3] =>
      Ok (be32 a0 a1 a2 a3, be32 b0 b1 b2 b3, be32 c0 c1 c2 c3)
  | _ => Raise StructError
  end.

Definition is_u32 (v : Z) : bool := (0 <=? v) && (v <? 2 ^ 32).

Definition pack_be32 (v : Z) : list byte :=
  [byte_of_Z (v / 2 ^ 24); byte_of_Z (v / 2 ^ 16); byte_of_Z (v / 2 ^ 8);
   byte_of_Z v].

(** [struct.pack(">III", a, b, c)]: every argument must fit 32 bits. *)
Definition struct_pack_III (a b c : Z) : result (list byte) :=
  if is_u32 a && is_u32 b && is_u32 c
  then Ok (pack_be32 a ++ pack_be32 b ++ pack_be32 c)
  else Raise StructError.

(** [bpp_map.get(fmt, default)] with [bpp_map = {0:4, 1:3, 2:2, 3:1}]. *)
Definition bpp_map_get (fmt default : Z) : Z :=
  match fmt with
  | 0 => 4
  | 1 => 3
  | 2 => 2
  | 3 => 1
  | _ => default
  end.

(** Lines 62-66 of [read_cim]: the height adjustment.  The result is the
    flag "the warning was printed", the height and the payload as they
    stand when the pixels are converted. *)
Definition adjust_height (width height bpp : Z) (pixels : list byte)
  : result (bool * Z * list byte) :=
  let expected_len := width * height * bpp in
  if len pixels <? expected_len then
    height' <- floordiv (len pixels) (width * bpp) ;;
    Ok (true, height', slice_to pixels (width * height' * bpp))
  else Ok (false, height, pixels).

(** The [if fmt == 0 ... elif ... else] chain of [read_cim]: the bytes
    given to [Image.frombytes], [None] in the [else] branch. *)
Definition unpack (fmt : Z) (pixels : list byte) : option (result (list byte)) :=
  if fmt =? 0 then Some (Ok pixels)
  else if fmt =? 1 then Some (convert_rgb888_to_rgba pixels)
  else if fmt =? 2 then Some (convert_rgb565_to_rgba pixels)
  else if fmt =? 3 then Some (convert_grayscale_to_rgba pixels)
  else None.

(** What a call of [read_cim] does. *)
Inductive outcome : Type :=
| Converted (warned : bool) (width height : Z) (rgba : list byte)
    (* [Image.frombytes("RGBA", (width, height), rgba)] is called: the
       decoded image is handed to PIL; [warned] tells whether the
       "adjusting height" warning was printed *)
| DecompressFailed       (* "Error: Failed to decompress" *)
| HeaderTooShort         (* "Error: File too short to contain header" *)
| UnsupportedFormat      (* "Unsupported format" *)
| CreateFailed (e : exn) (* "Failed to create image": [e] caught *)
| Uncaught (e : exn).    (* [e] leaves [read_cim] *)

(** The image that [Image.open(file_path).convert("RGBA")] returns, as
    [write_cim] observes it. *)
Record Image : Type := mkImage {
  size : Z * Z;
  tobytes : list byte
}.

Section Codec.

(** [zlib.compress] and [zlib.decompress]; [None] stands for [zlib.error]. *)
Variable zlib_compress : list byte -> list byte.
Variable zlib_decompress : list byte -> option (list byte).

(** [read_cim] on the contents of the file and the chosen format. *)
Definition read_cim (compressed_data : list byte) (fmt : Z) : outcome :=
  match zlib_decompress compressed_data with
  | None => DecompressFailed
  | Some data =>
      if len data <? 12 then HeaderTooShort
      else
        match struct_unpack_III (slice_to data 12) with
        | Raise e => Uncaught e
        | Ok (width, height, file_fmt) =>
            let pixels := slice_from data 12 in
            let bpp := bpp_map_get fmt 4 in
            match adjust_height width height bpp pixels with
            | Raise e => Uncaught e
            | Ok (warned, height, pixels) =>
                match unpack fmt pixels with
                | Some (Ok rgba) => Converted warned width height rgba
                | Some (Raise e) => CreateFailed e
                | None => UnsupportedFormat
                end
            end
        end
  end.

(** [write_cim] on the opened image: the bytes written to the [.cim]
    file, or the exception that leaves the function. *)
Definition write_cim (img : Image) : result (list byte) :=
  let '(width, height) := size img in
  let raw_data := tobytes img in
  header <- struct_pack_III width height 0 ;;
  Ok (zlib_compress (header ++ raw_data)).

End Codec.

(** A stand-in for zlib that stores its input behind one marker byte; it
    is used to run the model on concrete files. *)
Definition stored_compress (data : list byte) : list byte := x78 :: data.

Definition stored_decompress (data : list byte) : option (list byte) :=
  match data with
  | x78 :: rest => Some rest
  | _ => None
  end.

(** ** Definitions used by the statements and the proofs *)

(** The 256 bytes, to check a property of two bytes by enumeration. *)
Definition all_bytes : list byte :=
  map (fun n => byte_of_Z (Z.of_nat n)) (seq 0 256).

(** Equality test on [bytes]. *)
Fixpoint bytes_eqb (l1 l2 : list byte) : bool :=
  match l1, l2 with
  | [], [] => true
  | a :: l1', b :: l2' => Byte.eqb a b && bytes_eqb l1' l2'
  | _, _ => false
  end.

(** The 16-bit big-endian word made of two bytes. *)
Definition word_be (hi lo : byte) : Z := Z_of_byte hi * 256 + Z_of_byte lo.

(** The 5-, 6- and 5-bit fields of a 16-bit word, most significant first. *)
Definition field_r (w : Z) : Z := w / 2 ^ 11.
Definition field_g (w : Z) : Z := (w / 2 ^ 5) mod 2 ^ 6.
Definition field_b (w : Z) : Z := w mod 2 ^ 5.

(** Expansion to 8 bits by bit replication. *)
Definition expand5 (x : Z) : Z := Z.lor (Z.shiftl x 3) (Z.shiftr x 2).
Definition expand6 (x : Z) : Z := Z.lor (Z.shiftl x 2) (Z.shiftr x 4).

(** The RGBA channels of a 16-bit RGB565 word, in the words of the
    specification. *)
Definition rgb565_expand (w : Z) : list Z :=
  [expand5 (field_r w); expand6 (field_g w); expand5 (field_b w); 255].

(** The loop body of [convert_rgb565_to_rgba] agrees with [rgb565_expand]
    on the word [hi lo], and the channels fit a byte. *)
Definition rgb565_check (hi lo : byte) : bool :=
  forallb in_byte_range (rgb565_expand (word_be hi lo)) &&
  match rgb565_pixel [hi; lo] 0 with
  | Ok px => bytes_eqb px (map byte_of_Z (rgb565_expand (word_be hi lo)))
  | Raise _ => false
  end.

(** The result of each converter on whole pixels, by recursion on the
    input. *)
Fixpoint rgb565_rgba (data : list byte) : list byte :=
  match data with
  | hi :: lo :: rest =>
      map byte_of_Z (rgb565_expand (word_be hi lo)) ++ rgb565_rgba rest
  | _ => []
  end.

Fixpoint rgb888_rgba (data : list byte) : list byte :=
  match data with
  | r :: g :: b :: rest => [r; g; b; xff] ++ rgb888_rgba rest
  | _ => []
  end.

Fixpoint grayscale_rgba (data : list byte) : list byte :=
  match data with
  | v :: rest => [v; v; v; xff] ++ grayscale_rgba rest
  | [] => []
  end.

(** Every fourth byte, the alpha channel of each RGBA pixel, is 255. *)
Definition alpha_opaque (rgba : list byte) : Prop :=
  forall k : nat, (4 * k + 3 < length rgba)%nat ->
                  nth_error rgba (4 * k + 3) = Some xff.

(** The decompressed contents of a [.cim] file and the file itself, with
    [stored_compress] in place of zlib. *)
Definition cim_data (w h tag : Z) (payload : list byte) : list byte :=
  pack_be32 w ++ pack_be32 h ++ pack_be32 tag ++ payload.

Definition cim_file (w h tag : Z) (payload : list byte) : list byte :=
  stored_compress (cim_data w h tag payload).

(** ** The format prompt and the batch driver *)

(** [c.isspace()] for a code point below 256: the characters that
    [str.strip()] removes. *)
Definition is_space (c : ascii) : bool :=
  let n := N_of_ascii c in
  (((9 <=? n) && (n <=? 13)) || ((28 <=? n) && (n <=? 32))
   || (n =? 133) || (n =? 160))%N.

Fixpoint lstrip (l : list ascii) : list ascii :=
  match l with
  | c :: rest => if is_space c then lstrip rest else l
  | [] => []
  end.

(** [s.strip()] *)
Definition strip (s : string) : string :=
  string_of_list_ascii
    (rev (lstrip (rev (lstrip (list_ascii_of_string s))))).

(** [int(s)] for a string [s] of decimal digits, the only strings that
    [ask_for_format] converts. *)
Definition int_of_digits (s : string) : Z :=
  fold_left (fun acc c => acc * 10 + (Z.of_N (N_of_ascii c) - 48))
            (list_ascii_of_string s) 0.

(** [ask_for_format] on the line that [input] returns: the lines printed
    (the prompt of [input] among them) and the format returned. *)
Definition ask_for_format (line : string) : list string * Z :=
  let printed :=
    ["Select pixel format to use for all .cim files:";
     "0 - RGBA8888 (4 bytes per pixel)";
     "1 - RGB888 (3 bytes per pixel)";
     "2 - RGB565 (2 bytes per pixel)";
     "3 - Grayscale 8-bit (1 byte per pixel)";
     "Enter your choice (0-3): "]%string in
  let choice := strip line in
  if existsb (String.eqb choice) ["0"; "1"; "2"; "3"]%string
  then (printed, int_of_digits choice)
  else (printed ++ ["Invalid input, defaulting to RGBA8888."%string], 0).

(** [c.lower()] for a code point below 256: the letters A-Z and the
    capital letters of Latin-1 (U+00C0 to U+00DE, without U+00D7). *)
Definition lower_char (c : ascii) : ascii :=
  let n := N_of_ascii c in
  if (((65 <=? n) && (n <=? 90))
      || ((192 <=? n) && (n <=? 222) && negb (n =? 215)))%N
  then ascii_of_N (n + 32) else c.

(** [s.lower()] *)
Definition lower (s : string) : string :=
  string_of_list_ascii (map lower_char (list_ascii_of_string s)).

Fixpoint starts_with (p l : list ascii) : bool :=
  match p, l with
  | [], _ => true
  | a :: p', b :: l' => Ascii.eqb a b && starts_with p' l'
  | _ :: _, [] => false
  end.

(** [s.endswith(suffix)] *)
Definition endswith (s suffix : string) : bool :=
  starts_with (rev (list_ascii_of_string suffix))
              (rev (list_ascii_of_string s)).

(** What [main] does, step by step. *)
Inductive step : Type :=
| Usage                            (* "Please drag & drop ..." *)
| WaitEnter                        (* [input("... Press Enter to exit.")] *)
| AskFormat (printed : list string)       (* [ask_for_format()] *)
| ReadCim (file_path : string) (fmt : Z)  (* [read_cim(file_path, fmt)] *)
| WriteCim (file_path : string)           (* [write_cim(file_path)] *)
| Skipped (file_path : string).           (* "Skipping unsupported file" *)

(** The body of the loop of [main] over the files. *)
Definition process_file (fmt : Z) (file_path : string) : step :=
  let ext := lower file_path in
  if endswith ext ".cim" then ReadCim file_path fmt
  else if endswith ext ".png" then WriteCim file_path
  else Skipped file_path.

(** [main] on [sys.argv] and on the line typed at the format prompt. *)
Definition main (argv : list string) (line : string) : list step :=
  if (length argv <? 2)%nat then [Usage; WaitEnter]
  else
    let files := skipn 1 argv in
    let has_cim := existsb (fun f => endswith (lower f) ".cim") files in
    let '(asked, fmt) :=
      if has_cim
      then let '(printed, fmt) := ask_for_format line in
           ([AskFormat printed], fmt)
      else ([], 0) in
    asked ++ map (process_file fmt) files ++ [WaitEnter].

(** Case analysis on a hypothesis [H : In fmt [f1; ...; fn]]. *)
Ltac each_format H :=
  cbn [In] in H; repeat (destruct H as [<-|H]); [..|contradiction H].

(** ** Bytes and integers *)

Lemma Z_of_byte_range (b : byte) : 0 <= Z_of_byte b < 256.
Proof.
  unfold Z_of_byte. pose proof (Byte.to_N_bounded b). lia.
Qed.

Lemma byte_of_Z_of_byte (b : byte) : byte_of_Z (Z_of_byte b) = b.
Proof.
  unfold byte_of_Z. pose proof (Z_of_byte_range b) as Hb.
  rewrite Z.mod_small by exact Hb.
  unfold Z_of_byte. rewrite N2Z.id, Byte.of_to_N. reflexivity.
Qed.

Lemma Z_of_byte_of_Z (z : Z) : 0 <= z < 256 -> Z_of_byte (byte_of_Z z) = z.
Proof.
  intros Hz. unfold byte_of_Z. rewrite Z.mod_small by exact Hz.
  destruct (Byte.of_N (Z.to_N z)) as [b|] eqn:E.
  - apply Byte.to_of_N in E. unfold Z_of_byte. rewrite E. lia.
  - apply Byte.of_N_None_iff in E. lia.
Qed.

Lemma Z_of_byte_of_Z_mod (z : Z) : Z_of_byte (byte_of_Z z) = z mod 256.
Proof.
  assert (H : byte_of_Z z = byte_of_Z (z mod 256)).
  { unfold byte_of_Z. rewrite Z.mod_mod by lia. reflexivity. }
  rewrite H. apply Z_of_byte_of_Z. apply Z.mod_pos_bound. lia.
Qed.

Lemma in_byte_range_Z_of_byte (b : byte) : in_byte_range (Z_of_byte b) = true.
Proof.
  unfold in_byte_range. pose proof (Z_of_byte_range b).
  apply andb_true_intro. split; [apply Z.leb_le | apply Z.ltb_lt]; lia.
Qed.

Lemma in_byte_range_iff (z : Z) : in_byte_range z = true <-> 0 <= z < 256.
Proof.
  unfold in_byte_range. rewrite andb_true_iff, Z.leb_le, Z.ltb_lt. tauto.
Qed.

(** ** Loops and ranges *)

Lemma for_append_acc {A : Type} (body : A -> result (list byte))
    (idxs : list A) (acc : list (list byte)) :
  for_append body idxs acc =
  (r <- for_append body idxs [] ;; Ok (acc ++ r)).
Proof.
  revert acc. induction idxs as [|i rest IH]; intros acc; simpl.
  - rewrite app_nil_r. reflexivity.
  - destruct (body i) as [px|e]; simpl; [|reflexivity].
    rewrite (IH (acc ++ [px])), (IH [px]).
    destruct (for_append body rest []) as [r|e]; simpl; [|reflexivity].
    rewrite <- app_assoc. reflexivity.
Qed.

Lemma for_append_ext {A : Type} (f g : A -> result (list byte))
    (idxs : list A) (acc : list (list byte)) :
  (forall i, f i = g i) -> for_append f idxs acc = for_append g idxs acc.
Proof.
  intros H. revert acc. induction idxs as [|i rest IH]; intros acc; simpl.
  - reflexivity.
  - rewrite H. destruct (g i); simpl; [apply IH | reflexivity].
Qed.

Lemma for_append_map {A B : Type} (body : B -> result (list byte))
    (f : A -> B) (idxs : list A) (acc : list (list byte)) :
  for_append body (map f idxs) acc = for_append (fun i => body (f i)) idxs acc.
Proof.
  revert acc. induction idxs as [|i rest IH]; intros acc; simpl.
  - reflexivity.
  - destruct (body (f i)); simpl; [apply IH | reflexivity].
Qed.

Lemma range_step (n step : nat) :
  (0 < step)%nat ->
  range (step + n) step = 0%nat :: map (fun i => (step + i)%nat) (range n step).
Proof.
  intros Hs. unfold range.
  replace (step + n + step - 1)%nat with ((n + step - 1) + 1 * step)%nat by lia.
  rewrite Nat.div_add by lia.
  rewrite Nat.add_1_r. simpl seq. simpl map. f_equal.
  rewrite <- seq_shift, !map_map. apply map_ext. intros k. lia.
Qed.

(** ** Checking a property on every pair of bytes *)

Lemma in_all_bytes (b : byte) : In b all_bytes.
Proof.
  unfold all_bytes. apply in_map_iff.
  exists (Z.to_nat (Z_of_byte b)). pose proof (Z_of_byte_range b). split.
  - rewrite Z2Nat.id by lia. apply byte_of_Z_of_byte.
  - apply in_seq. lia.
Qed.

Lemma forall_bytes2 (P : byte -> byte -> bool) :
  forallb (fun a => forallb (P a) all_bytes) all_bytes = true ->
  forall a b, P a b = true.
Proof.
  intros H a b. rewrite forallb_forall in H.
  specialize (H a (in_all_bytes a)). rewrite forallb_forall in H.
  apply H, in_all_bytes.
Qed.

Lemma bytes_eqb_eq (l1 l2 : list byte) : bytes_eqb l1 l2 = true -> l1 = l2.
Proof.
  revert l2. induction l1 as [|a l1 IH]; intros [|b l2]; simpl;
    try discriminate; [reflexivity|].
  intros H. apply andb_true_iff in H. destruct H as [Hab Hl].
  apply Byte.byte_dec_bl in Hab. subst b. f_equal. apply IH, Hl.
Qed.

(** ** RGB565: the expansion in the words of the specification *)

Lemma rgb565_check_all (hi lo : byte) : rgb565_check hi lo = true.
Proof.
  revert hi lo. apply forall_bytes2. vm_compute. reflexivity.
Qed.

Lemma rgb565_expand_range (hi lo : byte) :
  Forall (fun v => 0 <= v < 256) (rgb565_expand (word_be hi lo)).
Proof.
  pose proof (rgb565_check_all hi lo) as H. unfold rgb565_check in H.
  apply andb_true_iff in H. destruct H as [H _].
  rewrite forallb_forall in H. apply Forall_forall. intros v Hv.
  apply in_byte_range_iff, H, Hv.
Qed.

Lemma rgb565_pixel_pair (hi lo : byte) :
  rgb565_pixel [hi; lo] 0 = Ok (map byte_of_Z (rgb565_expand (word_be hi lo))).
Proof.
  pose proof (rgb565_check_all hi lo) as H. unfold rgb565_check in H.
  apply andb_true_iff in H. destruct H as [_ H].
  destruct (rgb565_pixel [hi; lo] 0) as [px|e]; [|discriminate].
  apply bytes_eqb_eq in H. subst px. reflexivity.
Qed.

(** ** The converters, by recursion on the input *)

Lemma list_ind_by2 {A : Type} (P : list A -> Prop) :
  P [] -> (forall a, P [a]) -> (forall a b l, P l -> P (a :: b :: l)) ->
  forall l, P l.
Proof.
  intros H0 H1 H2.
  assert (H : forall l, P l /\ forall a, P (a :: l)).
  { induction l as [|x l [IHa IHb]]; split; auto. }
  intros l. apply H.
Qed.

Lemma list_ind_by3 {A : Type} (P : list A -> Prop) :
  P [] -> (forall a, P [a]) -> (forall a b, P [a; b]) ->
  (forall a b c l, P l -> P (a :: b :: c :: l)) ->
  forall l, P l.
Proof.
  intros H0 H1 H2 H3.
  assert (H : forall l, P l /\ (forall a, P (a :: l)) /\
                        forall a b, P (a :: b :: l)).
  { induction l as [|x l [IHa [IHb IHc]]]; repeat split; auto. }
  intros l. apply H.
Qed.

Lemma bytes_of_ints_bytes (l : list byte) :
  bytes_of_ints (map Z_of_byte l ++ [255]) = Ok (l ++ [xff]).
Proof.
  unfold bytes_of_ints.
  assert (H : forallb in_byte_range (map Z_of_byte l ++ [255]) = true).
  { rewrite forallb_app. apply andb_true_iff. split; [|reflexivity].
    apply forallb_forall. intros z Hz. apply in_map_iff in Hz.
    destruct Hz as [b [<- _]]. apply in_byte_range_Z_of_byte. }
  rewrite H, map_app, map_map. f_equal. f_equal.
  rewrite <- (map_id l) at 2. apply map_ext, byte_of_Z_of_byte.
Qed.

Lemma convert_rgb565_cons2 (hi lo : byte) (d : list byte) :
  convert_rgb565_to_rgba (hi :: lo :: d) =
  (rest <- convert_rgb565_to_rgba d ;;
   Ok (map byte_of_Z (rgb565_expand (word_be hi lo)) ++ rest)).
Proof.
  unfold convert_rgb565_to_rgba.
  change (length (hi :: lo :: d)) with (2 + length d)%nat.
  rewrite range_step by lia. cbn [for_append].
  change (rgb565_pixel (hi :: lo :: d) 0) with (rgb565_pixel [hi; lo] 0).
  rewrite rgb565_pixel_pair. cbn [bind app].
  rewrite for_append_map.
  rewrite (for_append_ext _ (rgb565_pixel d)) by reflexivity.
  rewrite for_append_acc.
  destruct (for_append (rgb565_pixel d) (range (length d) 2) []);
    reflexivity.
Qed.

Lemma convert_rgb888_cons3 (r g b : byte) (d : list byte) :
  convert_rgb888_to_rgba (r :: g :: b :: d) =
  (rest <- convert_rgb888_to_rgba d ;; Ok ([r; g; b; xff] ++ rest)).
Proof.
  unfold convert_rgb888_to_rgba.
  change (length (r :: g :: b :: d)) with (3 + length d)%nat.
  rewrite range_step by lia. cbn [for_append].
  assert (Hpx : rgb888_pixel (r :: g :: b :: d) 0 = Ok [r; g; b; xff]).
  { apply (bytes_of_ints_bytes [r; g; b]). }
  rewrite Hpx. cbn [bind app].
  rewrite for_append_map.
  rewrite (for_append_ext _ (rgb888_pixel d)) by reflexivity.
  rewrite for_append_acc.
  destruct (for_append (rgb888_pixel d) (range (length d) 3) []);
    reflexivity.
Qed.

Lemma convert_grayscale_cons (v : byte) (d : list byte) :
  convert_grayscale_to_rgba (v :: d) =
  (rest <- convert_grayscale_to_rgba d ;; Ok ([v; v; v; xff] ++ rest)).
Proof.
  unfold convert_grayscale_to_rgba. cbn [for_append].
  assert (Hpx : grayscale_pixel v = Ok [v; v; v; xff]).
  { apply (bytes_of_ints_bytes [v; v; v]). }
  rewrite Hpx. cbn [bind app]. rewrite for_append_acc.
  destruct (for_append grayscale_pixel d []); reflexivity.
Qed.

(** Each converter either raises [IndexError], when the length of its
    input is not a multiple of the pixel size, or returns the expansion. *)
Lemma convert_rgb565_eq (data : list byte) :
  convert_rgb565_to_rgba data =
  if (length data mod 2 =? 0)%nat then Ok (rgb565_rgba data)
  else Raise IndexError.
Proof.
  induction data as [|a|a b d IH] using list_ind_by2.
  - reflexivity.
  - reflexivity.
  - rewrite convert_rgb565_cons2, IH.
    change (length (a :: b :: d)) with (2 + length d)%nat.
    replace ((2 + length d) mod 2)%nat with (length d mod 2)%nat.
    + destruct (length d mod 2 =? 0)%nat; reflexivity.
    + replace (2 + length d)%nat with (length d + 1 * 2)%nat by lia.
      rewrite Nat.Div0.mod_add. reflexivity.
Qed.

Lemma convert_rgb888_eq (data : list byte) :
  convert_rgb888_to_rgba data =
  if (length data mod 3 =? 0)%nat then Ok (rgb888_rgba data)
  else Raise IndexError.
Proof.
  induction data as [|a|a b|a b c d IH] using list_ind_by3.
  - reflexivity.
  - reflexivity.
  - reflexivity.
  - rewrite convert_rgb888_cons3, IH.
    change (length (a :: b :: c :: d)) with (3 + length d)%nat.
    replace ((3 + length d) mod 3)%nat with (length d mod 3)%nat.
    + destruct (length d mod 3 =? 0)%nat; reflexivity.
    + replace (3 + length d)%nat with (length d + 1 * 3)%nat by lia.
      rewrite Nat.Div0.mod_add. reflexivity.
Qed.

Lemma convert_grayscale_eq (data : list byte) :
  convert_grayscale_to_rgba data = Ok (grayscale_rgba data).
Proof.
  induction data as [|v d IH].
  - reflexivity.
  - rewrite convert_grayscale_cons, IH. reflexivity.
Qed.

(** ** Header *)

Lemma be32_range (b0 b1 b2 b3 : byte) : 0 <= be32 b0 b1 b2 b3 < 2 ^ 32.
Proof.
  unfold be32.
  pose proof (Z_of_byte_range b0). pose proof (Z_of_byte_range b1).
  pose proof (Z_of_byte_range b2). pose proof (Z_of_byte_range b3).
  change (2 ^ 32) with 4294967296. lia.
Qed.

Lemma struct_unpack_III_length (hdr : list byte) (w h t : Z) :
  struct_unpack_III hdr = Ok (w, h, t) -> length hdr = 12%nat.
Proof.
  do 13 (destruct hdr as [|? hdr]; try discriminate). reflexivity.
Qed.

Lemma struct_unpack_III_range (hdr : list byte) (w h t : Z) :
  struct_unpack_III hdr = Ok (w, h, t) ->
  0 <= w < 2 ^ 32 /\ 0 <= h < 2 ^ 32 /\ 0 <= t < 2 ^ 32.
Proof.
  do 13 (destruct hdr as [|? hdr]; try discriminate).
  simpl. intros H. injection H as <- <- <-.
  repeat split; apply be32_range.
Qed.

Lemma be32_pack_be32 (v : Z) :
  0 <= v < 2 ^ 32 ->
  match pack_be32 v with
  | [b0; b1; b2; b3] => be32 b0 b1 b2 b3 = v
  | _ => False
  end.
Proof.
  intros Hv. unfold pack_be32, be32. rewrite !Z_of_byte_of_Z_mod.
  change (2 ^ 32) with 4294967296 in Hv.
  change (2 ^ 24) with 16777216. change (2 ^ 16) with 65536.
  change (2 ^ 8) with 256.
  Z.to_euclidean_division_equations. lia.
Qed.

Lemma struct_pack_unpack (a b c : Z) :
  0 <= a < 2 ^ 32 -> 0 <= b < 2 ^ 32 -> 0 <= c < 2 ^ 32 ->
  exists hdr, struct_pack_III a b c = Ok hdr /\
              struct_unpack_III hdr = Ok (a, b, c).
Proof.
  intros Ha Hb Hc. unfold struct_pack_III.
  assert (Hu : forall v, 0 <= v < 2 ^ 32 -> is_u32 v = true).
  { intros v Hv. unfold is_u32. apply andb_true_iff.
    rewrite Z.leb_le, Z.ltb_lt. exact Hv. }
  rewrite !Hu by assumption. cbn [andb].
  eexists. split; [reflexivity|].
  pose proof (be32_pack_be32 a Ha) as Ea.
  pose proof (be32_pack_be32 b Hb) as Eb.
  pose proof (be32_pack_be32 c Hc) as Ec.
  unfold pack_be32 in *. cbn [app struct_unpack_III].
  rewrite Ea, Eb, Ec. reflexivity.
Qed.

Lemma len_app (l1 l2 : list byte) : len (l1 ++ l2) = len l1 + len l2.
Proof. unfold len. rewrite length_app. lia. Qed.

Lemma len_nonneg (l : list byte) : 0 <= len l.
Proof. unfold len. lia. Qed.

Lemma slice_to_header (hdr payload : list byte) :
  length hdr = 12%nat -> slice_to (hdr ++ payload) 12 = hdr.
Proof.
  intros H. unfold slice_to. cbn [Z.ltb Z.compare].
  change (Z.to_nat 12) with 12%nat. rewrite <- H.
  rewrite firstn_app, Nat.sub_diag, firstn_all. cbn [firstn].
  apply app_nil_r.
Qed.

Lemma slice_from_header (hdr payload : list byte) :
  length hdr = 12%nat -> slice_from (hdr ++ payload) 12 = payload.
Proof.
  intros H. unfold slice_from. rewrite <- H.
  rewrite skipn_app, Nat.sub_diag, skipn_all. reflexivity.
Qed.

Lemma slice_to_length (data : list byte) (k : Z) :
  0 <= k <= len data -> len (slice_to data k) = k.
Proof.
  intros Hk. unfold slice_to.
  destruct (Z.ltb_spec k 0) as [Hlt|_]; [lia|].
  unfold len in *. rewrite length_firstn. lia.
Qed.

(** ** The height adjustment *)

Lemma adjust_height_eq (w h bpp : Z) (pixels : list byte) :
  adjust_height w h bpp pixels =
  if len pixels <? w * h * bpp
  then Ok (true, len pixels / (w * bpp),
           slice_to pixels (w * (len pixels / (w * bpp)) * bpp))
  else Ok (false, h, pixels).
Proof.
  unfold adjust_height.
  destruct (Z.ltb_spec (len pixels) (w * h * bpp)) as [Hlt|Hge];
    [|reflexivity].
  unfold floordiv. destruct (Z.eqb_spec (w * bpp) 0) as [E|_];
    [|reflexivity].
  pose proof (len_nonneg pixels).
  replace (w * h * bpp) with (w * bpp * h) in Hlt by ring.
  rewrite E in Hlt. lia.
Qed.

Lemma repaired_length (w bpp : Z) (pixels : list byte) :
  0 < w * bpp ->
  len (slice_to pixels (w * (len pixels / (w * bpp)) * bpp)) =
  w * (len pixels / (w * bpp)) * bpp.
Proof.
  intros Hpos. apply slice_to_length.
  pose proof (len_nonneg pixels) as Hl.
  pose proof (Z.mul_div_le (len pixels) (w * bpp) Hpos) as Hle.
  pose proof (Z.div_pos (len pixels) (w * bpp) Hl Hpos) as Hq.
  replace (w * (len pixels / (w * bpp)) * bpp)
    with (w * bpp * (len pixels / (w * bpp))) by ring.
  split; [apply Z.mul_nonneg_nonneg; lia | exact Hle].
Qed.

Lemma bpp_map_get_cases (fmt : Z) :
  bpp_map_get fmt 4 = 4 \/ bpp_map_get fmt 4 = 3 \/
  bpp_map_get fmt 4 = 2 \/ bpp_map_get fmt 4 = 1.
Proof.
  unfold bpp_map_get.
  destruct fmt as [|p|p]; auto.
  destruct p as [[p|p|]|[p|p|]|]; auto.
Qed.

Lemma bpp_map_get_pos (fmt : Z) : 0 < bpp_map_get fmt 4.
Proof.
  destruct (bpp_map_get_cases fmt) as [E|[E|[E|E]]]; rewrite E; lia.
Qed.

Section Decode.

Variable zlib_decompress : list byte -> option (list byte).

(** [read_cim] once the file is decompressed and its header parsed. *)
Lemma read_cim_parsed (c hdr payload : list byte) (w h tag fmt : Z) :
  zlib_decompress c = Some (hdr ++ payload) ->
  struct_unpack_III hdr = Ok (w, h, tag) ->
  read_cim zlib_decompress c fmt =
  match adjust_height w h (bpp_map_get fmt 4) payload with
  | Raise e => Uncaught e
  | Ok (warned, h', pixels) =>
      match unpack fmt pixels with
      | Some (Ok rgba) => Converted warned w h' rgba
      | Some (Raise e) => CreateFailed e
      | None => UnsupportedFormat
      end
  end.
Proof.
  intros Hz Hh. pose proof (struct_unpack_III_length _ _ _ _ Hh) as Hl.
  unfold read_cim. rewrite Hz.
  destruct (Z.ltb_spec (len (hdr ++ payload)) 12) as [Hlt|_].
  - rewrite len_app in Hlt. pose proof (len_nonneg payload).
    unfold len in Hlt at 1. lia.
  - rewrite slice_to_header, slice_from_header, Hh by exact Hl.
    reflexivity.
Qed.

(** No exception leaves [read_cim]: the header is parsed only when twelve
    bytes are there, and the division of line 65 is reached only with a
    non-zero divisor. *)
Lemma read_cim_no_uncaught (c : list byte) (fmt : Z) (e : exn) :
  read_cim zlib_decompress c fmt <> Uncaught e.
Proof.
  unfold read_cim.
  destruct (zlib_decompress c) as [data|]; [|discriminate].
  destruct (Z.ltb_spec (len data) 12) as [_|Hge]; [discriminate|].
  unfold slice_to. cbn [Z.ltb Z.compare]. change (Z.to_nat 12) with 12%nat.
  assert (Hl : length (firstn 12 data) = 12%nat).
  { rewrite length_firstn. unfold len in Hge. lia. }
  destruct (firstn 12 data) as [|? l]; [discriminate Hl|].
  do 11 (destruct l as [|? l]; [discriminate Hl|]).
  destruct l; [|discriminate Hl]. cbn [struct_unpack_III].
  rewrite adjust_height_eq.
  destruct (_ <? _); destruct (unpack fmt _) as [[r|e']|]; discriminate.
Qed.

End Decode.

(** [write_cim] on dimensions that do not fit the header: [struct.pack]
    raises and nothing is written. *)
Lemma write_cim_oversize (zlib_compress : list byte -> list byte)
    (w h : Z) (p : list byte) :
  2 ^ 32 <= w -> write_cim zlib_compress (mkImage (w, h) p) = Raise StructError.
Proof.
  intros Hw. unfold write_cim, struct_pack_III. cbn [size tobytes].
  assert (E : is_u32 w = false).
  { unfold is_u32. apply andb_false_iff. right. apply Z.ltb_ge. exact Hw. }
  rewrite E. reflexivity.
Qed.

(** ** Length and alpha channel of the converted pixels *)

Lemma alpha_opaque_nil : alpha_opaque [].
Proof. intros k Hk. simpl in Hk. lia. Qed.

Lemma alpha_opaque_cons4 (r g b : byte) (rest : list byte) :
  alpha_opaque rest -> alpha_opaque (r :: g :: b :: xff :: rest).
Proof.
  intros H [|k] Hk.
  - reflexivity.
  - replace (4 * S k + 3)%nat with (S (S (S (S (4 * k + 3))))) by lia.
    cbn [nth_error]. apply H. cbn [length] in Hk. lia.
Qed.

Lemma rgb565_expand_shape (hi lo : byte) :
  exists r g b,
    map byte_of_Z (rgb565_expand (word_be hi lo)) = [r; g; b; xff].
Proof. do 3 eexists. reflexivity. Qed.

Lemma rgb565_rgba_alpha (data : list byte) : alpha_opaque (rgb565_rgba data).
Proof.
  induction data as [|a|a b d IH] using list_ind_by2;
    try apply alpha_opaque_nil.
  cbn [rgb565_rgba]. destruct (rgb565_expand_shape a b) as (r & g & b' & E).
  rewrite E. apply alpha_opaque_cons4, IH.
Qed.

Lemma rgb888_rgba_alpha (data : list byte) : alpha_opaque (rgb888_rgba data).
Proof.
  induction data as [|a|a b|a b c d IH] using list_ind_by3;
    try apply alpha_opaque_nil.
  apply alpha_opaque_cons4, IH.
Qed.

Lemma grayscale_rgba_alpha (data : list byte) :
  alpha_opaque (grayscale_rgba data).
Proof.
  induction data as [|v d IH]; [apply alpha_opaque_nil|].
  apply alpha_opaque_cons4, IH.
Qed.

Lemma div_step (n k : nat) : (0 < k)%nat -> ((k + n) / k = S (n / k))%nat.
Proof.
  intros Hk. replace (k + n)%nat with (n + 1 * k)%nat by lia.
  rewrite Nat.div_add by lia. lia.
Qed.

Lemma rgb565_rgba_length (data : list byte) :
  length (rgb565_rgba data) = (4 * (length data / 2))%nat.
Proof.
  induction data as [|a|a b d IH] using list_ind_by2; try reflexivity.
  cbn [rgb565_rgba]. destruct (rgb565_expand_shape a b) as (r & g & b' & E).
  rewrite E. cbn [app length]. rewrite IH.
  change (S (S (length d))) with (2 + length d)%nat.
  rewrite div_step by lia. lia.
Qed.

Lemma rgb888_rgba_length (data : list byte) :
  length (rgb888_rgba data) = (4 * (length data / 3))%nat.
Proof.
  induction data as [|a|a b|a b c d IH] using list_ind_by3; try reflexivity.
  cbn [rgb888_rgba app length]. rewrite IH.
  change (S (S (S (length d)))) with (3 + length d)%nat.
  rewrite div_step by lia. lia.
Qed.

Lemma grayscale_rgba_length (data : list byte) :
  length (grayscale_rgba data) = (4 * length data)%nat.
Proof.
  induction data as [|v d IH]; [reflexivity|].
  cbn [grayscale_rgba app length]. rewrite IH. lia.
Qed.

Lemma len_mod_nat (data : list byte) (k : nat) :
  (0 < k)%nat ->
  ((length data mod k =? 0)%nat = true <-> len data mod Z.of_nat k = 0).
Proof.
  intros Hk. unfold len. rewrite Nat.eqb_eq, <- Nat2Z.inj_mod. lia.
Qed.

Lemma len_div_nat (data : list byte) (k : nat) :
  Z.of_nat (length data / k) = len data / Z.of_nat k.
Proof. unfold len. apply Nat2Z.inj_div. Qed.

(** The conversion chain on a payload whose length is a multiple of the
    pixel size. *)
Lemma unpack_whole_pixels (fmt : Z) (data : list byte) :
  In fmt [0; 1; 2; 3] ->
  len data mod bpp_map_get fmt 4 = 0 ->
  exists rgba,
    unpack fmt data = Some (Ok rgba) /\
    len rgba = 4 * (len data / bpp_map_get fmt 4) /\
    (fmt <> 0 -> alpha_opaque rgba).
Proof.
  intros Hf Hm. each_format Hf; cbn [bpp_map_get] in *;
    unfold unpack; cbn [Z.eqb Pos.eqb].
  - exists data. repeat split; [|congruence].
    Z.to_euclidean_division_equations. lia.
  - rewrite convert_rgb888_eq.
    apply (len_mod_nat data 3) in Hm; [|lia]. rewrite Hm.
    exists (rgb888_rgba data). repeat split.
    + unfold len at 1. rewrite rgb888_rgba_length, Nat2Z.inj_mul.
      rewrite (len_div_nat data 3). reflexivity.
    + intros _. apply rgb888_rgba_alpha.
  - rewrite convert_rgb565_eq.
    apply (len_mod_nat data 2) in Hm; [|lia]. rewrite Hm.
    exists (rgb565_rgba data). repeat split.
    + unfold len at 1. rewrite rgb565_rgba_length, Nat2Z.inj_mul.
      rewrite (len_div_nat data 2). reflexivity.
    + intros _. apply rgb565_rgba_alpha.
  - rewrite convert_grayscale_eq.
    exists (grayscale_rgba data). repeat split.
    + unfold len at 1. rewrite grayscale_rgba_length, Nat2Z.inj_mul.
      rewrite Z.div_1_r. reflexivity.
    + intros _. apply grayscale_rgba_alpha.
Qed.

(** * Properties of the codec *)

(** C1. Round trip: for a width and a height that fit the 32-bit header
    fields, both positive, and an RGBA buffer [p] of [w * h * 4] bytes,
    [write_cim] produces a file on which [read_cim] with format 0
    (RGBA8888) hands exactly [(w, h)] and [p] to [Image.frombytes],
    without a warning.  zlib is assumed to decompress what it
    compressed. *)
Theorem roundtrip_identity
    (zlib_compress : list byte -> list byte)
    (zlib_decompress : list byte -> option (list byte))
    (zlib_roundtrip : forall d, zlib_decompress (zlib_compress d) = Some d)
    (w h : Z) (p : list byte) :
  0 < w < 2 ^ 32 -> 0 < h < 2 ^ 32 -> len p = w * h * 4 ->
  exists c,
    write_cim zlib_compress (mkImage (w, h) p) = Ok c /\
    read_cim zlib_decompress c 0 = Converted false w h p.
Proof.
  intros Hw Hh Hp.
  destruct (struct_pack_unpack w h 0) as (hdr & Hpack & Hunpack); try lia.
  exists (zlib_compress (hdr ++ p)). split.
  - unfold write_cim. cbn [size tobytes]. rewrite Hpack. reflexivity.
  - rewrite (read_cim_parsed _ _ hdr p w h 0 0 (zlib_roundtrip _) Hunpack).
    rewrite adjust_height_eq. cbn [bpp_map_get].
    destruct (Z.ltb_spec (len p) (w * h * 4)) as [Hlt|_]; [lia|].
    reflexivity.
Qed.

Lemma roundtrip_identity_witness :
  exists c,
    write_cim stored_compress
      (mkImage (2, 1) [x01; x02; x03; x04; x05; x06; x07; x08]) = Ok c /\
    read_cim stored_decompress c 0 =
    Converted false 2 1 [x01; x02; x03; x04; x05; x06; x07; x08].
Proof.
  apply (roundtrip_identity stored_compress stored_decompress).
  - intros d. reflexivity.
  - split; reflexivity.
  - split; reflexivity.
  - reflexivity.
Defined.

(** C2. Repair rule: when the width is positive, the format is one of the
    four and the payload is shorter than [width * height * bpp],
    [read_cim] sets the height to [len(payload) // (width * bpp)], keeps
    the first [width * height' * bpp] bytes of the payload, which are
    exactly that many, converts them without an exception and hands the
    image of the new height to [Image.frombytes]. *)
Theorem truncation_repair
    (zlib_decompress : list byte -> option (list byte))
    (c hdr payload : list byte) (w h tag fmt : Z) :
  zlib_decompress c = Some (hdr ++ payload) ->
  struct_unpack_III hdr = Ok (w, h, tag) ->
  0 < w ->
  In fmt [0; 1; 2; 3] ->
  len payload < w * h * bpp_map_get fmt 4 ->
  let bpp := bpp_map_get fmt 4 in
  let h' := len payload / (w * bpp) in
  let pixels := firstn (Z.to_nat (w * h' * bpp)) payload in
  adjust_height w h bpp payload = Ok (true, h', pixels) /\
  len pixels = w * h' * bpp /\
  exists rgba,
    unpack fmt pixels = Some (Ok rgba) /\
    len rgba = w * h' * 4 /\
    read_cim zlib_decompress c fmt = Converted true w h' rgba.
Proof.
  intros Hz Hh Hw Hf Hshort bpp h' pixels.
  assert (Hbpp : 0 < bpp).
  { apply bpp_map_get_pos. }
  assert (Hwb : 0 < w * bpp) by (apply Z.mul_pos_pos; lia).
  assert (Hh' : 0 <= h').
  { subst h'. apply Z.div_pos; [apply len_nonneg | exact Hwb]. }
  assert (Hk : 0 <= w * h' * bpp).
  { apply Z.mul_nonneg_nonneg; [apply Z.mul_nonneg_nonneg|]; lia. }
  assert (Hadj : adjust_height w h bpp payload = Ok (true, h', pixels)).
  { rewrite adjust_height_eq.
    destruct (Z.ltb_spec (len payload) (w * h * bpp)) as [_|Hge];
      [|subst bpp; lia].
    fold h'. unfold slice_to.
    destruct (Z.ltb_spec (w * h' * bpp) 0) as [Hneg|_]; [lia|].
    reflexivity. }
  assert (Hlen : len pixels = w * h' * bpp).
  { pose proof (repaired_length w bpp payload Hwb) as Hr. fold h' in Hr.
    unfold slice_to in Hr.
    destruct (Z.ltb_spec (w * h' * bpp) 0) as [Hneg|_]; [lia|].
    exact Hr. }
  split; [exact Hadj|]. split; [exact Hlen|].
  destruct (unpack_whole_pixels fmt pixels Hf) as (rgba & Hu & Hl & _).
  { fold bpp. rewrite Hlen. apply Z.mod_mul. lia. }
  exists rgba. split; [exact Hu|]. split.
  - rewrite Hl. fold bpp. rewrite Hlen, Z.div_mul by lia. ring.
  - rewrite (read_cim_parsed _ _ _ _ _ _ _ fmt Hz Hh).
    fold bpp. rewrite Hadj, Hu. reflexivity.
Qed.

(** The example of the specification: width 10, height 10, RGB888 and a
    payload of 250 bytes give height 8 and 240 payload bytes. *)
Lemma truncation_repair_witness :
  let payload := repeat x2a 250 in
  let pixels := firstn 240 payload in
  adjust_height 10 10 3 payload = Ok (true, 8, pixels) /\
  len pixels = 240 /\
  exists rgba,
    unpack 1 pixels = Some (Ok rgba) /\
    len rgba = 320 /\
    read_cim stored_decompress (cim_file 10 10 0 payload) 1 =
    Converted true 10 8 rgba.
Proof.
  apply (truncation_repair stored_decompress
           (cim_file 10 10 0 (repeat x2a 250))
           (pack_be32 10 ++ pack_be32 10 ++ pack_be32 0)
           (repeat x2a 250) 10 10 0 1).
  - reflexivity.
  - reflexivity.
  - reflexivity.
  - simpl. auto.
  - reflexivity.
Defined.

(** C3, as the code has it.  With width 0 the expected length is 0, so the
    height adjustment is never entered and nothing is divided: the header
    height and the whole payload go on to the conversion unchanged, and
    [read_cim] ends as that conversion ends: when it succeeds, an image
    of width 0 is handed to [Image.frombytes].  No exception leaves
    [read_cim]. *)
Theorem zero_width_passes_through
    (zlib_decompress : list byte -> option (list byte))
    (c hdr payload : list byte) (h tag fmt : Z) :
  zlib_decompress c = Some (hdr ++ payload) ->
  struct_unpack_III hdr = Ok (0, h, tag) ->
  adjust_height 0 h (bpp_map_get fmt 4) payload = Ok (false, h, payload) /\
  read_cim zlib_decompress c fmt =
    match unpack fmt payload with
    | Some (Ok rgba) => Converted false 0 h rgba
    | Some (Raise e) => CreateFailed e
    | None => UnsupportedFormat
    end /\
  forall e, read_cim zlib_decompress c fmt <> Uncaught e.
Proof.
  intros Hz Hh.
  assert (Hadj : adjust_height 0 h (bpp_map_get fmt 4) payload
                 = Ok (false, h, payload)).
  { rewrite adjust_height_eq. pose proof (len_nonneg payload).
    destruct (Z.ltb_spec (len payload) (0 * h * bpp_map_get fmt 4));
      [lia | reflexivity]. }
  assert (Hr : read_cim zlib_decompress c fmt =
               match unpack fmt payload with
               | Some (Ok rgba) => Converted false 0 h rgba
               | Some (Raise e) => CreateFailed e
               | None => UnsupportedFormat
               end).
  { rewrite (read_cim_parsed _ _ _ _ _ _ _ fmt Hz Hh), Hadj. reflexivity. }
  split; [exact Hadj|]. split; [exact Hr|].
  intros e. rewrite Hr.
  destruct (unpack fmt payload) as [[rgba|e']|]; discriminate.
Qed.

Lemma zero_width_passes_through_witness :
  adjust_height 0 5 (bpp_map_get 2 4) [x12; x34] = Ok (false, 5, [x12; x34]) /\
  read_cim stored_decompress (cim_file 0 5 0 [x12; x34]) 2 =
    match unpack 2 [x12; x34] with
    | Some (Ok rgba) => Converted false 0 5 rgba
    | Some (Raise e) => CreateFailed e
    | None => UnsupportedFormat
    end /\
  forall e, read_cim stored_decompress (cim_file 0 5 0 [x12; x34]) 2
            <> Uncaught e.
Proof.
  apply (zero_width_passes_through stored_decompress
           (cim_file 0 5 0 [x12; x34])
           (pack_be32 0 ++ pack_be32 5 ++ pack_be32 0) [x12; x34] 5 0 2).
  - reflexivity.
  - reflexivity.
Defined.

(** C3 as stated fails: a header with width 0 and height 5 is decoded,
    with each of the four formats, into an image of size (0, 5) that is
    handed to [Image.frombytes]; [read_cim] reports no error. *)
Lemma zero_width_not_rejected :
  read_cim stored_decompress (cim_file 0 5 0 []) 0 = Converted false 0 5 [] /\
  read_cim stored_decompress (cim_file 0 5 0 []) 1 = Converted false 0 5 [] /\
  read_cim stored_decompress (cim_file 0 5 0 []) 2 = Converted false 0 5 [] /\
  read_cim stored_decompress (cim_file 0 5 0 []) 3 = Converted false 0 5 [].
Proof. repeat split. Qed.

(** C4, as the code has it.  When the pixels are converted the payload
    holds at least [width * height * bpp] bytes.  It holds exactly that
    many whenever the payload of the file was not longer than the header
    announced; a longer payload is converted whole, with the height of
    the header. *)
Theorem payload_length_at_unpack
    (zlib_decompress : list byte -> option (list byte))
    (c hdr payload : list byte) (w h tag fmt : Z) :
  zlib_decompress c = Some (hdr ++ payload) ->
  struct_unpack_III hdr = Ok (w, h, tag) ->
  let bpp := bpp_map_get fmt 4 in
  exists warned h' pixels,
    adjust_height w h bpp payload = Ok (warned, h', pixels) /\
    read_cim zlib_decompress c fmt =
      match unpack fmt pixels with
      | Some (Ok rgba) => Converted warned w h' rgba
      | Some (Raise e) => CreateFailed e
      | None => UnsupportedFormat
      end /\
    w * h' * bpp <= len pixels /\
    (len payload <= w * h * bpp -> len pixels = w * h' * bpp) /\
    (w * h * bpp < len payload -> h' = h /\ pixels = payload).
Proof.
  intros Hz Hh bpp.
  pose proof (read_cim_parsed zlib_decompress _ _ _ _ _ _ fmt Hz Hh) as Hr.
  fold bpp in Hr. rewrite adjust_height_eq in Hr.
  destruct (struct_unpack_III_range _ _ _ _ Hh) as (Hw & _ & _).
  assert (Hbpp : 0 < bpp).
  { apply bpp_map_get_pos. }
  rewrite adjust_height_eq.
  destruct (Z.ltb_spec (len payload) (w * h * bpp)) as [Hlt|Hge].
  - assert (Hwb : 0 < w * bpp).
    { pose proof (len_nonneg payload).
      assert (w <> 0) by (intros ->; lia).
      apply Z.mul_pos_pos; lia. }
    pose proof (repaired_length w bpp payload Hwb) as Hl.
    do 3 eexists. split; [reflexivity|]. split; [exact Hr|].
    rewrite Hl. repeat split; lia.
  - do 3 eexists. split; [reflexivity|]. split; [exact Hr|].
    repeat split; lia.
Qed.

Lemma payload_length_at_unpack_witness :
  exists warned h' pixels,
    adjust_height 2 3 (bpp_map_get 3 4) [x01; x02; x03; x04; x05]
      = Ok (warned, h', pixels) /\
    read_cim stored_decompress
        (cim_file 2 3 0 [x01; x02; x03; x04; x05]) 3 =
      match unpack 3 pixels with
      | Some (Ok rgba) => Converted warned 2 h' rgba
      | Some (Raise e) => CreateFailed e
      | None => UnsupportedFormat
      end /\
    2 * h' * bpp_map_get 3 4 <= len pixels /\
    (len [x01; x02; x03; x04; x05] <= 2 * 3 * bpp_map_get 3 4 ->
     len pixels = 2 * h' * bpp_map_get 3 4) /\
    (2 * 3 * bpp_map_get 3 4 < len [x01; x02; x03; x04; x05] ->
     h' = 3 /\ pixels = [x01; x02; x03; x04; x05]).
Proof.
  apply (payload_length_at_unpack stored_decompress
           (cim_file 2 3 0 [x01; x02; x03; x04; x05])
           (pack_be32 2 ++ pack_be32 3 ++ pack_be32 0)
           [x01; x02; x03; x04; x05] 2 3 0 3).
  - reflexivity.
  - reflexivity.
Defined.

(** C4 as stated fails: a 1 x 1 RGBA8888 image followed by four more
    bytes reaches the conversion with eight payload bytes, not four. *)
Lemma long_payload_not_truncated :
  let payload := [x01; x02; x03; x04; x05; x06; x07; x08] in
  adjust_height 1 1 (bpp_map_get 0 4) payload = Ok (false, 1, payload) /\
  len payload <> 1 * 1 * bpp_map_get 0 4 /\
  read_cim stored_decompress (cim_file 1 1 0 payload) 0 =
    Converted false 1 1 payload.
Proof. repeat split. discriminate. Qed.

(** C5, as the code has it.  On an input whose length is not a multiple of
    the pixel size, the RGB888 and the RGB565 converters raise
    [IndexError] and return no pixels; RGBA8888 data is not converted at
    all and goes on unchanged whatever its length.  (Every length is a
    multiple of the pixel size of Grayscale8.) *)
Theorem ragged_input
    (fmt : Z) (data : list byte) :
  In fmt [0; 1; 2; 3] ->
  len data mod bpp_map_get fmt 4 <> 0 ->
  (fmt = 0 /\ unpack fmt data = Some (Ok data)) \/
  ((fmt = 1 \/ fmt = 2) /\ unpack fmt data = Some (Raise IndexError)).
Proof.
  intros Hf Hm. each_format Hf; cbn [bpp_map_get] in Hm.
  - left. split; reflexivity.
  - right. split; [left; reflexivity|].
    unfold unpack. cbn [Z.eqb Pos.eqb]. rewrite convert_rgb888_eq.
    destruct (length data mod 3 =? 0)%nat eqn:E; [|reflexivity].
    apply (len_mod_nat data 3) in E; [contradiction | lia].
  - right. split; [right; reflexivity|].
    unfold unpack. cbn [Z.eqb Pos.eqb]. rewrite convert_rgb565_eq.
    destruct (length data mod 2 =? 0)%nat eqn:E; [|reflexivity].
    apply (len_mod_nat data 2) in E; [contradiction | lia].
  - rewrite Z.mod_1_r in Hm. contradiction.
Qed.

Lemma ragged_input_witness :
  (1 = 0 /\ unpack 1 [x0a; x0b; x0c; x0d] = Some (Ok [x0a; x0b; x0c; x0d])) \/
  ((1 = 1 \/ 1 = 2) /\
   unpack 1 [x0a; x0b; x0c; x0d] = Some (Raise IndexError)).
Proof.
  apply (ragged_input 1 [x0a; x0b; x0c; x0d]).
  - simpl. auto.
  - vm_compute. discriminate.
Defined.

(** C5 as stated fails: five bytes are not a whole number of RGBA8888
    pixels, yet they are accepted, and [read_cim] hands all five to
    [Image.frombytes] for a 1 x 1 image. *)
Lemma ragged_rgba_accepted :
  let data := [x01; x02; x03; x04; x05] in
  len data mod bpp_map_get 0 4 <> 0 /\
  unpack 0 data = Some (Ok data) /\
  read_cim stored_decompress (cim_file 1 1 0 data) 0 =
    Converted false 1 1 data.
Proof. repeat split. discriminate. Qed.

(** C6. RGB565 expansion: [convert_rgb565_to_rgba] turns every big-endian
    16-bit word into the pixel whose channels are the 5-, 6- and 5-bit
    fields of the word expanded by [(r << 3) | (r >> 2)],
    [(g << 2) | (g >> 4)] and [(b << 3) | (b >> 2)], followed by 255; the
    expanded channels fit a byte; and the words 0xFFFF, 0x0000 and 0xF800
    give (255, 255, 255), (0, 0, 0) and (255, 0, 0). *)
Theorem rgb565_expansion :
  (forall words : list (byte * byte),
     convert_rgb565_to_rgba (flat_map (fun p => [fst p; snd p]) words) =
     Ok (flat_map
           (fun p => map byte_of_Z (rgb565_expand (word_be (fst p) (snd p))))
           words)) /\
  (forall hi lo : byte,
     Forall (fun v => 0 <= v < 256) (rgb565_expand (word_be hi lo))) /\
  convert_rgb565_to_rgba [xff; xff] = Ok [xff; xff; xff; xff] /\
  convert_rgb565_to_rgba [x00; x00] = Ok [x00; x00; x00; xff] /\
  convert_rgb565_to_rgba [xf8; x00] = Ok [xff; x00; x00; xff].
Proof.
  split; [|split; [exact rgb565_expand_range | repeat split]].
  induction words as [|[hi lo] words IH].
  - reflexivity.
  - cbn [flat_map fst snd app]. rewrite convert_rgb565_cons2, IH.
    reflexivity.
Qed.

(** C7. The format tag is ignored: two decompressed streams of the same
    length that agree on their first eight bytes and on everything after
    the twelfth are decoded alike, whatever the format chosen. *)
Theorem format_tag_ignored
    (zlib_decompress : list byte -> option (list byte))
    (c1 c2 d1 d2 : list byte) (fmt : Z) :
  zlib_decompress c1 = Some d1 ->
  zlib_decompress c2 = Some d2 ->
  length d1 = length d2 ->
  firstn 8 d1 = firstn 8 d2 ->
  skipn 12 d1 = skipn 12 d2 ->
  read_cim zlib_decompress c1 fmt = read_cim zlib_decompress c2 fmt.
Proof.
  intros H1 H2 Hlen Hpre Hpost. unfold read_cim. rewrite H1, H2.
  unfold len. rewrite Hlen.
  destruct (Z.ltb_spec (Z.of_nat (length d2)) 12) as [_|Hge];
    [reflexivity|].
  do 12 (destruct d1 as [|? d1]; [simpl in Hlen; subst; simpl in Hge; lia|]).
  do 12 (destruct d2 as [|? d2]; [discriminate Hlen|]).
  cbn [firstn] in Hpre. injection Hpre as -> -> -> -> -> -> -> ->.
  unfold slice_from. cbn [skipn] in Hpost |- *. subst d2.
  unfold slice_to. cbn [Z.ltb Z.compare].
  change (Z.to_nat 12) with 12%nat. cbn [firstn struct_unpack_III].
  reflexivity.
Qed.

Lemma format_tag_ignored_witness :
  read_cim stored_decompress (cim_file 1 1 0 [xf8; x00]) 2 =
  read_cim stored_decompress (cim_file 1 1 3 [xf8; x00]) 2.
Proof.
  apply (format_tag_ignored stored_decompress
           (cim_file 1 1 0 [xf8; x00]) (cim_file 1 1 3 [xf8; x00])
           (cim_data 1 1 0 [xf8; x00]) (cim_data 1 1 3 [xf8; x00]) 2);
    reflexivity.
Defined.

(** C8. Alpha invariant: for RGB888, RGB565 and Grayscale8 and an input
    that holds a whole number of pixels, the conversion succeeds, gives
    four bytes for each pixel, and the fourth byte of every pixel is
    255. *)
Theorem alpha_invariant
    (fmt : Z) (data : list byte) :
  In fmt [1; 2; 3] ->
  len data mod bpp_map_get fmt 4 = 0 ->
  exists rgba,
    unpack fmt data = Some (Ok rgba) /\
    len rgba = 4 * (len data / bpp_map_get fmt 4) /\
    forall k : nat,
      Z.of_nat k < len data / bpp_map_get fmt 4 ->
      nth_error rgba (4 * k + 3) = Some xff.
Proof.
  intros Hf Hm.
  assert (Hf4 : In fmt [0; 1; 2; 3]) by (right; exact Hf).
  assert (Hnz : fmt <> 0).
  { each_format Hf; discriminate. }
  destruct (unpack_whole_pixels fmt data Hf4 Hm) as (rgba & Hu & Hl & Ha).
  exists rgba. split; [exact Hu|]. split; [exact Hl|].
  intros k Hk. apply (Ha Hnz). unfold len in Hl at 1. lia.
Qed.

Lemma alpha_invariant_witness :
  exists rgba,
    unpack 2 [xf8; x00; x07; xe0] = Some (Ok rgba) /\
    len rgba = 4 * (len [xf8; x00; x07; xe0] / bpp_map_get 2 4) /\
    forall k : nat,
      Z.of_nat k < len [xf8; x00; x07; xe0] / bpp_map_get 2 4 ->
      nth_error rgba (4 * k + 3) = Some xff.
Proof.
  apply (alpha_invariant 2 [xf8; x00; x07; xe0]).
  - simpl. auto.
  - reflexivity.
Defined.

(** C9, as the code has it.  With a positive width, one of the four
    formats and a payload shorter than one row, [read_cim] reaches
    [Image.frombytes] with an image of height 0 and no pixel data,
    provided the header announces a height of at least 1 (so that the
    adjustment is entered) or the payload is empty. *)
Theorem short_row_gives_empty_image
    (zlib_decompress : list byte -> option (list byte))
    (c hdr payload : list byte) (w h tag fmt : Z) :
  zlib_decompress c = Some (hdr ++ payload) ->
  struct_unpack_III hdr = Ok (w, h, tag) ->
  0 < w ->
  In fmt [0; 1; 2; 3] ->
  len payload < w * bpp_map_get fmt 4 ->
  0 < h \/ len payload = 0 ->
  exists warned,
    adjust_height w h (bpp_map_get fmt 4) payload = Ok (warned, 0, []) /\
    (0 < h -> warned = true) /\
    read_cim zlib_decompress c fmt = Converted warned w 0 [].
Proof.
  intros Hz Hh Hw Hf Hshort Hcase.
  set (bpp := bpp_map_get fmt 4) in *.
  destruct (struct_unpack_III_range _ _ _ _ Hh) as (_ & Hhr & _).
  assert (Hbpp : 0 < bpp).
  { apply bpp_map_get_pos. }
  assert (Hwb : 0 < w * bpp) by (apply Z.mul_pos_pos; lia).
  pose proof (len_nonneg payload) as Hl0.
  assert (Hu : unpack fmt [] = Some (Ok [])).
  { each_format Hf; reflexivity. }
  pose proof (read_cim_parsed zlib_decompress _ _ _ _ _ _ fmt Hz Hh) as Hr.
  fold bpp in Hr. rewrite adjust_height_eq in Hr. rewrite adjust_height_eq.
  destruct (Z.ltb_spec (len payload) (w * h * bpp)) as [Hlt|Hge].
  - exists true. rewrite (Z.div_small (len payload) (w * bpp)) in * by lia.
    replace (w * 0 * bpp) with 0 in * by ring.
    change (slice_to payload 0) with (@nil byte) in *.
    rewrite Hu in Hr. auto.
  - assert (Hh0 : h = 0).
    { destruct (Z.eq_dec h 0) as [E|E]; [exact E|].
      assert (w * bpp * 1 <= w * bpp * h) by (apply Z.mul_le_mono_nonneg_l; lia).
      lia. }
    assert (Hp : payload = []).
    { destruct Hcase as [Hpos|Hlen]; [lia|].
      destruct payload; [reflexivity | discriminate Hlen]. }
    subst h payload. exists false. rewrite Hu in Hr.
    split; [reflexivity|]. split; [lia | exact Hr].
Qed.

Lemma short_row_gives_empty_image_witness :
  exists warned,
    adjust_height 10 4 (bpp_map_get 1 4) [x01; x02; x03; x04; x05]
      = Ok (warned, 0, []) /\
    (0 < 4 -> warned = true) /\
    read_cim stored_decompress
      (cim_file 10 4 0 [x01; x02; x03; x04; x05]) 1 = Converted warned 10 0 [].
Proof.
  apply (short_row_gives_empty_image stored_decompress
           (cim_file 10 4 0 [x01; x02; x03; x04; x05])
           (pack_be32 10 ++ pack_be32 4 ++ pack_be32 0)
           [x01; x02; x03; x04; x05] 10 4 0 1).
  - reflexivity.
  - reflexivity.
  - reflexivity.
  - simpl. auto.
  - reflexivity.
  - left. reflexivity.
Defined.

(** C9 as stated fails when the header announces height 0: the
    adjustment is not entered, so a one-byte payload, shorter than a row
    of width 10, is kept.  As RGBA8888 it is handed over as it is; as
    RGB888 its conversion raises [IndexError]. *)
Lemma short_row_zero_height_kept :
  adjust_height 10 0 (bpp_map_get 0 4) [x01] = Ok (false, 0, [x01]) /\
  read_cim stored_decompress (cim_file 10 0 0 [x01]) 0 =
    Converted false 10 0 [x01] /\
  read_cim stored_decompress (cim_file 10 0 0 [x01]) 1 =
    CreateFailed IndexError.
Proof. repeat split. Qed.

(** C10. The width is never modified: whenever [read_cim] hands an image
    to [Image.frombytes], the decompressed stream starts with a 12-byte
    header, the width of the image is the width parsed from that header,
    and the height is at most the height parsed from it. *)
Theorem width_unchanged
    (zlib_decompress : list byte -> option (list byte))
    (c : list byte) (fmt : Z) (warned : bool) (w' h' : Z) (rgba : list byte) :
  read_cim zlib_decompress c fmt = Converted warned w' h' rgba ->
  exists hdr payload h tag,
    zlib_decompress c = Some (hdr ++ payload) /\
    struct_unpack_III hdr = Ok (w', h, tag) /\
    h' <= h /\
    (warned = false -> h' = h).
Proof.
  intros Hr. unfold read_cim in Hr.
  destruct (zlib_decompress c) as [data|] eqn:Hz; [|discriminate].
  destruct (Z.ltb_spec (len data) 12) as [_|Hge]; [discriminate|].
  assert (Hl : length (firstn 12 data) = 12%nat).
  { rewrite length_firstn. unfold len in Hge. lia. }
  unfold slice_to in Hr. cbn [Z.ltb Z.compare] in Hr.
  change (Z.to_nat 12) with 12%nat in Hr.
  destruct (struct_unpack_III (firstn 12 data)) as [[[w h] tag]|e] eqn:Hh;
    [|discriminate].
  destruct (struct_unpack_III_range _ _ _ _ Hh) as (Hw & _ & _).
  rewrite adjust_height_eq in Hr. unfold slice_from in Hr.
  set (payload := skipn 12 data) in *. set (bpp := bpp_map_get fmt 4) in *.
  assert (Hbpp : 0 < bpp).
  { apply bpp_map_get_pos. }
  exists (firstn 12 data), payload, h, tag.
  assert (Hd : Some data = Some (firstn 12 data ++ payload)).
  { subst payload. rewrite firstn_skipn. reflexivity. }
  destruct (Z.ltb_spec (len payload) (w * h * bpp)) as [Hlt|Hnlt].
  - destruct (unpack fmt _) as [[r|e]|]; try discriminate.
    injection Hr as <- <- <- <-.
    pose proof (len_nonneg payload) as Hl0.
    assert (Hwb : 0 < w * bpp).
    { assert (w <> 0) by (intros ->; lia). apply Z.mul_pos_pos; lia. }
    repeat split; try assumption; try discriminate.
    assert (len payload / (w * bpp) < h); [|lia].
    apply Z.div_lt_upper_bound; [exact Hwb|].
    replace (w * bpp * h) with (w * h * bpp) by ring. exact Hlt.
  - destruct (unpack fmt _) as [[r|e]|]; try discriminate.
    injection Hr as <- <- <- <-.
    repeat split; try assumption; try lia.
Qed.

Lemma width_unchanged_witness :
  exists hdr payload h tag,
    stored_decompress (cim_file 3 2 0 [x01; x02; x03; x04]) =
      Some (hdr ++ payload) /\
    struct_unpack_III hdr = Ok (3, h, tag) /\
    1 <= h /\
    (true = false -> 1 = h).
Proof.
  apply (width_unchanged stored_decompress
           (cim_file 3 2 0 [x01; x02; x03; x04]) 3 true 3 1
           (grayscale_rgba [x01; x02; x03])).
  reflexivity.
Defined.

(** * Further properties *)

(** ** The conversion chain *)

Lemma unpack_None_iff (fmt : Z) (pixels : list byte) :
  unpack fmt pixels = None <-> ~ In fmt [0; 1; 2; 3].
Proof.
  unfold unpack. cbn [In].
  destruct (Z.eqb_spec fmt 0); [split; [discriminate | intros H; exfalso; apply H; auto]|].
  destruct (Z.eqb_spec fmt 1); [split; [discriminate | intros H; exfalso; apply H; auto]|].
  destruct (Z.eqb_spec fmt 2); [split; [discriminate | intros H; exfalso; apply H; auto]|].
  destruct (Z.eqb_spec fmt 3); [split; [discriminate | intros H; exfalso; apply H; auto 6]|].
  split; [|reflexivity]. intros _ H. intuition congruence.
Qed.

Lemma unpack_Ok_length (fmt : Z) (pixels rgba : list byte) :
  unpack fmt pixels = Some (Ok rgba) ->
  In fmt [0; 1; 2; 3] /\ len rgba * bpp_map_get fmt 4 = 4 * len pixels.
Proof.
  intros H.
  assert (Hf : In fmt [0; 1; 2; 3]).
  { destruct (in_dec Z.eq_dec fmt [0; 1; 2; 3]) as [Hin|Hout]; [exact Hin|].
    apply (unpack_None_iff fmt pixels) in Hout. congruence. }
  split; [exact Hf|].
  each_format Hf; unfold unpack in H; cbn [Z.eqb Pos.eqb bpp_map_get] in *.
  - injection H as <-. ring.
  - rewrite convert_rgb888_eq in H.
    destruct (length pixels mod 3 =? 0)%nat eqn:E; [|discriminate].
    injection H as <-. apply (len_mod_nat pixels 3) in E; [|lia].
    unfold len at 1. rewrite rgb888_rgba_length, Nat2Z.inj_mul.
    rewrite (len_div_nat pixels 3).
    change (Z.of_nat 4) with 4. change (Z.of_nat 3) with 3 in *.
    Z.to_euclidean_division_equations. lia.
  - rewrite convert_rgb565_eq in H.
    destruct (length pixels mod 2 =? 0)%nat eqn:E; [|discriminate].
    injection H as <-. apply (len_mod_nat pixels 2) in E; [|lia].
    unfold len at 1. rewrite rgb565_rgba_length, Nat2Z.inj_mul.
    rewrite (len_div_nat pixels 2).
    change (Z.of_nat 4) with 4. change (Z.of_nat 2) with 2 in *.
    Z.to_euclidean_division_equations. lia.
  - rewrite convert_grayscale_eq in H. injection H as <-.
    unfold len. rewrite grayscale_rgba_length. lia.
Qed.

Lemma unpack_raises_only_on_ragged_aux (fmt : Z) (pixels : list byte) (e : exn) :
  unpack fmt pixels = Some (Raise e) ->
  e = IndexError /\ (fmt = 1 \/ fmt = 2) /\
  len pixels mod bpp_map_get fmt 4 <> 0.
Proof.
  intros H.
  assert (Hf : In fmt [0; 1; 2; 3]).
  { destruct (in_dec Z.eq_dec fmt [0; 1; 2; 3]) as [Hin|Hout]; [exact Hin|].
    apply (unpack_None_iff fmt pixels) in Hout. congruence. }
  each_format Hf; unfold unpack in H; cbn [Z.eqb Pos.eqb bpp_map_get] in *.
  - discriminate.
  - rewrite convert_rgb888_eq in H.
    destruct (length pixels mod 3 =? 0)%nat eqn:E; [discriminate|].
    injection H as <-. repeat split; auto.
    intros Hm. apply (len_mod_nat pixels 3) in Hm; [congruence | lia].
  - rewrite convert_rgb565_eq in H.
    destruct (length pixels mod 2 =? 0)%nat eqn:E; [discriminate|].
    injection H as <-. repeat split; auto.
    intros Hm. apply (len_mod_nat pixels 2) in Hm; [congruence | lia].
  - rewrite convert_grayscale_eq in H. discriminate.
Qed.

(** X1. The conversion of a payload raises nothing but [IndexError], only
    for RGB888 and RGB565, and only when the payload is not a whole number
    of pixels: [bytes([...])] never raises [ValueError], and Grayscale8
    and RGBA8888 payloads are never refused. *)
Theorem unpack_raises_only_on_ragged (fmt : Z) (pixels : list byte) (e : exn) :
  unpack fmt pixels = Some (Raise e) ->
  e = IndexError /\ (fmt = 1 \/ fmt = 2) /\
  len pixels mod bpp_map_get fmt 4 <> 0.
Proof. apply unpack_raises_only_on_ragged_aux. Qed.

Lemma unpack_raises_only_on_ragged_witness :
  IndexError = IndexError /\ (2 = 1 \/ 2 = 2) /\
  len [x12; x34; x56] mod bpp_map_get 2 4 <> 0.
Proof.
  apply (unpack_raises_only_on_ragged 2 [x12; x34; x56] IndexError).
  reflexivity.
Defined.

(** ** Outcomes of [read_cim] *)

Lemma struct_unpack_III_total (hdr : list byte) :
  length hdr = 12%nat -> exists w h t, struct_unpack_III hdr = Ok (w, h, t).
Proof.
  intros H. do 12 (destruct hdr as [|? hdr]; [discriminate H|]).
  destruct hdr; [|discriminate H]. do 3 eexists. reflexivity.
Qed.

Section Outcomes.

Variable zlib_decompress : list byte -> option (list byte).

(** The three ways [read_cim] can go before the height adjustment. *)
Lemma read_cim_cases (c : list byte) (fmt : Z) :
  (zlib_decompress c = None /\
   read_cim zlib_decompress c fmt = DecompressFailed) \/
  (exists data, zlib_decompress c = Some data /\ len data < 12 /\
                read_cim zlib_decompress c fmt = HeaderTooShort) \/
  (exists hdr payload w h tag,
     zlib_decompress c = Some (hdr ++ payload) /\
     struct_unpack_III hdr = Ok (w, h, tag)).
Proof.
  destruct (zlib_decompress c) as [data|] eqn:Hz.
  - right. destruct (Z.ltb_spec (len data) 12) as [Hlt|Hge].
    + left. exists data. repeat split; [exact Hlt|].
      unfold read_cim. rewrite Hz.
      destruct (Z.ltb_spec (len data) 12); [reflexivity | lia].
    + right.
      assert (Hl : length (firstn 12 data) = 12%nat).
      { rewrite length_firstn. unfold len in Hge. lia. }
      destruct (struct_unpack_III_total _ Hl) as (w & h & t & Hh).
      exists (firstn 12 data), (skipn 12 data), w, h, t.
      rewrite firstn_skipn. split; [reflexivity | exact Hh].
  - left. split; [reflexivity|]. unfold read_cim. rewrite Hz. reflexivity.
Qed.

(** [read_cim] after the header, with the height adjustment written out. *)
Lemma read_cim_parsed_eq (c hdr payload : list byte) (w h tag fmt : Z) :
  zlib_decompress c = Some (hdr ++ payload) ->
  struct_unpack_III hdr = Ok (w, h, tag) ->
  let bpp := bpp_map_get fmt 4 in
  let h' := len payload / (w * bpp) in
  read_cim zlib_decompress c fmt =
  if len payload <? w * h * bpp then
    match unpack fmt (slice_to payload (w * h' * bpp)) with
    | Some (Ok rgba) => Converted true w h' rgba
    | Some (Raise e) => CreateFailed e
    | None => UnsupportedFormat
    end
  else
    match unpack fmt payload with
    | Some (Ok rgba) => Converted false w h rgba
    | Some (Raise e) => CreateFailed e
    | None => UnsupportedFormat
    end.
Proof.
  intros Hz Hh bpp h'.
  rewrite (read_cim_parsed _ _ _ _ _ _ _ fmt Hz Hh), adjust_height_eq.
  fold bpp. fold h'. destruct (len payload <? w * h * bpp); reflexivity.
Qed.

(** The payload kept by the height adjustment is a whole number of
    pixels of any of the four formats, so its conversion succeeds. *)
Lemma unpack_repaired (payload : list byte) (w h fmt : Z) :
  0 <= w -> In fmt [0; 1; 2; 3] ->
  len payload < w * h * bpp_map_get fmt 4 ->
  let bpp := bpp_map_get fmt 4 in
  let h' := len payload / (w * bpp) in
  0 < w /\ 0 <= h' < h /\
  exists rgba,
    unpack fmt (slice_to payload (w * h' * bpp)) = Some (Ok rgba) /\
    len rgba = w * h' * 4.
Proof.
  intros Hw Hf Hshort bpp h'.
  pose proof (bpp_map_get_pos fmt) as Hbpp. fold bpp in Hbpp, Hshort.
  pose proof (len_nonneg payload) as Hl0.
  assert (Hw0 : 0 < w).
  { assert (w <> 0) by (intros ->; lia). lia. }
  assert (Hwb : 0 < w * bpp) by (apply Z.mul_pos_pos; lia).
  assert (Hh' : 0 <= h' < h).
  { subst h'. split; [apply Z.div_pos; lia|].
    apply Z.div_lt_upper_bound; [exact Hwb|].
    replace (w * bpp * h) with (w * h * bpp) by ring. exact Hshort. }
  pose proof (repaired_length w bpp payload Hwb) as Hlen. fold h' in Hlen.
  destruct (unpack_whole_pixels fmt (slice_to payload (w * h' * bpp)) Hf)
    as (rgba & Hu & Hl & _).
  { fold bpp. rewrite Hlen. apply Z.mod_mul. lia. }
  split; [exact Hw0|]. split; [exact Hh'|].
  exists rgba. split; [exact Hu|].
  rewrite Hl. fold bpp. rewrite Hlen, Z.div_mul by lia. ring.
Qed.

(** X2. Which error [read_cim] reports: "Failed to decompress" exactly
    when zlib refuses the file, "File too short" exactly when fewer than
    twelve bytes come out of it, and "Unsupported format" exactly when
    the twelve bytes are there and the format is none of 0, 1, 2, 3,
    whatever the header and the payload hold. *)
Theorem read_cim_error_kinds (c : list byte) (fmt : Z) :
  (read_cim zlib_decompress c fmt = DecompressFailed <->
   zlib_decompress c = None) /\
  (read_cim zlib_decompress c fmt = HeaderTooShort <->
   exists data, zlib_decompress c = Some data /\ len data < 12) /\
  (read_cim zlib_decompress c fmt = UnsupportedFormat <->
   exists data, zlib_decompress c = Some data /\ 12 <= len data /\
                ~ In fmt [0; 1; 2; 3]).
Proof.
  destruct (read_cim_cases c fmt)
    as [[Hz Hr]|[(data & Hz & Hl & Hr)|(hdr & payload & w & h & tag & Hz & Hh)]].
  - rewrite Hr, Hz. repeat split; try discriminate; auto;
      intros (d & Hd & _); discriminate.
  - rewrite Hr, Hz. repeat split; try discriminate.
    + exists data. auto.
    + intros (d & Hd & Hge & _). injection Hd as <-. lia.
  - pose proof (read_cim_parsed_eq c hdr payload w h tag fmt Hz Hh) as Hr.
    cbv zeta in Hr.
    pose proof (struct_unpack_III_length _ _ _ _ Hh) as Hlen.
    destruct (struct_unpack_III_range _ _ _ _ Hh) as (Hw & _ & _).
    assert (Hge : 12 <= len (hdr ++ payload)).
    { rewrite len_app. pose proof (len_nonneg payload).
      unfold len at 1. lia. }
    rewrite Hz.
    destruct (in_dec Z.eq_dec fmt [0; 1; 2; 3]) as [Hin|Hout].
    + assert (Hne : forall px, unpack fmt px <> None).
      { intros px Hn. apply unpack_None_iff in Hn. contradiction. }
      assert (Hno : read_cim zlib_decompress c fmt <> DecompressFailed /\
                    read_cim zlib_decompress c fmt <> HeaderTooShort /\
                    read_cim zlib_decompress c fmt <> UnsupportedFormat).
      { rewrite Hr. destruct (_ <? _).
        - destruct (unpack fmt _) as [[r|e]|] eqn:E;
            [| |apply Hne in E; contradiction]; repeat split; discriminate.
        - destruct (unpack fmt _) as [[r|e]|] eqn:E;
            [| |apply Hne in E; contradiction]; repeat split; discriminate. }
      destruct Hno as (N1 & N2 & N3).
      repeat split; try discriminate; try contradiction.
      * intros (d & Hd & Hl). injection Hd as <-. lia.
      * intros (d & _ & _ & Hn). contradiction.
    + assert (Hu : forall px, unpack fmt px = None).
      { intros px. apply unpack_None_iff. exact Hout. }
      rewrite !Hu in Hr. assert (Hr' : read_cim zlib_decompress c fmt = UnsupportedFormat).
      { rewrite Hr. destruct (_ <? _); reflexivity. }
      rewrite Hr'. repeat split; try discriminate.
      * intros (d & Hd & Hl). injection Hd as <-. lia.
      * intros _. exists (hdr ++ payload). auto.
Qed.


(** X4. How [read_cim] can go once the file has been read: it hands an
    image to [Image.frombytes], or reports one of its three errors, or
    reports "Failed to create image" for an [IndexError] of the pixel
    conversion.  Up to that point no exception leaves [read_cim]:
    [struct.unpack] always gets its twelve bytes and the division of the
    height adjustment never has a zero divisor. *)
Theorem read_cim_outcomes (c : list byte) (fmt : Z) :
  (exists warned w h rgba,
     read_cim zlib_decompress c fmt = Converted warned w h rgba) \/
  read_cim zlib_decompress c fmt = DecompressFailed \/
  read_cim zlib_decompress c fmt = HeaderTooShort \/
  read_cim zlib_decompress c fmt = UnsupportedFormat \/
  read_cim zlib_decompress c fmt = CreateFailed IndexError.
Proof.
  destruct (read_cim_cases c fmt)
    as [[Hz Hr]|[(data & Hz & Hl & Hr)|(hdr & payload & w & h & tag & Hz & Hh)]];
    [tauto | tauto |].
  rewrite (read_cim_parsed_eq c hdr payload w h tag fmt Hz Hh). cbv zeta.
  destruct (_ <? _).
  - destruct (unpack fmt _) as [[r|e]|] eqn:E; [left; eauto | | tauto].
    destruct (unpack_raises_only_on_ragged_aux _ _ _ E) as (-> & _). tauto.
  - destruct (unpack fmt _) as [[r|e]|] eqn:E; [left; eauto | | tauto].
    destruct (unpack_raises_only_on_ragged_aux _ _ _ E) as (-> & _). tauto.
Qed.

End Outcomes.

Section Handed.

Variable zlib_decompress : list byte -> option (list byte).

Lemma converted_facts
    (c : list byte) (fmt : Z) (warned : bool) (w h : Z) (rgba : list byte) :
  read_cim zlib_decompress c fmt = Converted warned w h rgba ->
  In fmt [0; 1; 2; 3] /\
  0 <= w < 2 ^ 32 /\ 0 <= h < 2 ^ 32 /\
  w * h * 4 <= len rgba /\
  (warned = true -> 0 < w /\ len rgba = w * h * 4).
Proof.
  intros H.
  destruct (read_cim_cases zlib_decompress c fmt)
    as [[Hz Hr]|[(data & Hz & Hl & Hr)|(hdr & payload & w0 & h0 & tag & Hz & Hh)]];
    try congruence.
  rewrite (read_cim_parsed_eq _ c hdr payload w0 h0 tag fmt Hz Hh) in H.
  cbv zeta in H.
  destruct (struct_unpack_III_range _ _ _ _ Hh) as (Hw & Hh0 & _).
  pose proof (bpp_map_get_pos fmt) as Hbpp.
  destruct (Z.ltb_spec (len payload) (w0 * h0 * bpp_map_get fmt 4)) as [Hlt|Hge].
  - destruct (unpack fmt _) as [[r|e]|] eqn:E; try discriminate.
    injection H as <- <- <- <-.
    destruct (unpack_Ok_length _ _ _ E) as (Hf & _).
    destruct (unpack_repaired payload w0 h0 fmt (proj1 Hw) Hf Hlt)
      as (Hw0 & Hh' & rgba' & Hu & Hl).
    rewrite Hu in E. injection E as <-.
    repeat split; try assumption; try lia.
  - destruct (unpack fmt payload) as [[r|e]|] eqn:E; try discriminate.
    injection H as <- <- <- <-.
    destruct (unpack_Ok_length _ _ _ E) as (Hf & Hl).
    repeat split; try assumption; try lia; try discriminate.
    apply (Z.mul_le_mono_pos_r _ _ (bpp_map_get fmt 4)); [exact Hbpp|].
    rewrite Hl. lia.
Qed.

(** X5. What [read_cim] hands to [Image.frombytes]: the format is one of
    the four, width and height are 32-bit values, and the pixel data are
    never shorter than [width * height * 4] bytes; after a height
    adjustment the width is positive and the data are exactly that
    long. *)
Theorem handed_image_is_large_enough
    (c : list byte) (fmt : Z) (warned : bool) (w h : Z) (rgba : list byte) :
  read_cim zlib_decompress c fmt = Converted warned w h rgba ->
  In fmt [0; 1; 2; 3] /\
  0 <= w < 2 ^ 32 /\ 0 <= h < 2 ^ 32 /\
  w * h * 4 <= len rgba /\
  (warned = true -> 0 < w /\ len rgba = w * h * 4).
Proof. apply converted_facts. Qed.


End Handed.

Lemma handed_image_is_large_enough_witness :
  In 1 [0; 1; 2; 3] /\
  0 <= 10 < 2 ^ 32 /\ 0 <= 0 < 2 ^ 32 /\
  10 * 0 * 4 <= len [] /\
  (true = true -> 0 < 10 /\ len [] = 10 * 0 * 4).
Proof.
  apply (handed_image_is_large_enough stored_decompress
           (cim_file 10 4 0 [x01; x02; x03; x04; x05]) 1 true 10 0 []).
  reflexivity.
Defined.


(** ** [write_cim] and its composition with [read_cim] *)

Section WriteRead.

Variable zlib_compress : list byte -> list byte.
Variable zlib_decompress : list byte -> option (list byte).
Hypothesis zlib_roundtrip :
  forall d, zlib_decompress (zlib_compress d) = Some d.

(** The file that [write_cim] makes and what [read_cim] finds in it. *)
Lemma write_cim_parsed (w h : Z) (p : list byte) :
  0 <= w < 2 ^ 32 -> 0 <= h < 2 ^ 32 ->
  exists hdr,
    write_cim zlib_compress (mkImage (w, h) p) = Ok (zlib_compress (hdr ++ p)) /\
    struct_unpack_III hdr = Ok (w, h, 0) /\
    zlib_decompress (zlib_compress (hdr ++ p)) = Some (hdr ++ p).
Proof.
  intros Hw Hh.
  destruct (struct_pack_unpack w h 0) as (hdr & Hpack & Hunpack); try lia.
  exists hdr. unfold write_cim. cbn [size tobytes]. rewrite Hpack.
  repeat split; [exact Hunpack | apply zlib_roundtrip].
Qed.

(** X7. Decoding is stable under re-encoding: an image that [read_cim]
    handed over with exactly [width * height * 4] bytes, as after every
    height adjustment, is written by [write_cim] to a file that
    [read_cim] reads back, as RGBA8888, to the same image without a
    warning; this includes images of height or width 0. *)
Theorem reencode_is_stable
    (c : list byte) (fmt : Z) (warned : bool) (w h : Z) (rgba : list byte) :
  read_cim zlib_decompress c fmt = Converted warned w h rgba ->
  len rgba = w * h * 4 ->
  exists c',
    write_cim zlib_compress (mkImage (w, h) rgba) = Ok c' /\
    read_cim zlib_decompress c' 0 = Converted false w h rgba.
Proof.
  intros H Hl.
  destruct (converted_facts _ _ _ _ _ _ _ H) as (_ & Hw & Hh & _ & _).
  destruct (write_cim_parsed w h rgba Hw Hh) as (hdr & Hwr & Hun & Hz).
  eexists. split; [exact Hwr|].
  rewrite (read_cim_parsed_eq _ _ hdr rgba w h 0 0 Hz Hun). cbv zeta.
  cbn [bpp_map_get].
  destruct (Z.ltb_spec (len rgba) (w * h * 4)); [lia | reflexivity].
Qed.

(** X8. A file written by [write_cim] read with another format: the tag 0
    of the header is not consulted, the payload of [4 * w * h] bytes is
    long enough for each format, so no warning is printed; Grayscale8 and
    RGB565 always convert it, into [4 * w * h] and [2 * w * h] pixels,
    and RGB888 converts it when [w * h] is a multiple of 3 and fails with
    [IndexError] otherwise. *)
Theorem written_file_read_with_other_format (w h : Z) (p : list byte) :
  0 <= w < 2 ^ 32 -> 0 <= h < 2 ^ 32 -> len p = w * h * 4 ->
  exists c,
    write_cim zlib_compress (mkImage (w, h) p) = Ok c /\
    read_cim zlib_decompress c 3 = Converted false w h (grayscale_rgba p) /\
    len (grayscale_rgba p) = 4 * (4 * w * h) /\
    read_cim zlib_decompress c 2 = Converted false w h (rgb565_rgba p) /\
    len (rgb565_rgba p) = 4 * (2 * w * h) /\
    read_cim zlib_decompress c 1 =
      (if (w * h) mod 3 =? 0 then Converted false w h (rgb888_rgba p)
       else CreateFailed IndexError).
Proof.
  intros Hw Hh Hl.
  destruct (write_cim_parsed w h p Hw Hh) as (hdr & Hwr & Hun & Hz).
  eexists. split; [exact Hwr|].
  assert (Hwh : 0 <= w * h) by (apply Z.mul_nonneg_nonneg; lia).
  rewrite !(read_cim_parsed_eq _ _ hdr p w h 0 _ Hz Hun). cbv zeta.
  cbn [bpp_map_get]. unfold unpack. cbn [Z.eqb Pos.eqb].
  destruct (Z.ltb_spec (len p) (w * h * 1)); [lia|].
  destruct (Z.ltb_spec (len p) (w * h * 2)); [lia|].
  destruct (Z.ltb_spec (len p) (w * h * 3)); [lia|].
  rewrite convert_grayscale_eq, convert_rgb565_eq, convert_rgb888_eq.
  assert (E2 : (length p mod 2 =? 0)%nat = true).
  { apply (len_mod_nat p 2); [lia|]. rewrite Hl.
    change (Z.of_nat 2) with 2.
    replace (w * h * 4) with (w * h * 2 * 2) by ring. apply Z.mod_mul. lia. }
  rewrite E2. repeat split.
  - unfold len. rewrite grayscale_rgba_length. unfold len in Hl. lia.
  - unfold len at 1. rewrite rgb565_rgba_length, Nat2Z.inj_mul.
    rewrite (len_div_nat p 2), Hl. change (Z.of_nat 2) with 2.
    replace (w * h * 4) with (2 * w * h * 2) by ring.
    rewrite Z.div_mul by lia. reflexivity.
  - assert (E3 : (length p mod 3 =? 0)%nat = ((w * h) mod 3 =? 0)).
    { apply eq_true_iff_eq. rewrite (len_mod_nat p 3) by lia.
      rewrite Z.eqb_eq, Hl. change (Z.of_nat 3) with 3.
      Z.to_euclidean_division_equations. lia. }
    rewrite E3. destruct ((w * h) mod 3 =? 0); reflexivity.
Qed.

(** X9. [write_cim] builds the file from the header and the pixel bytes
    alone: when both dimensions fit 32 bits the decompressed file is the
    12-byte header, which parses to (width, height, 0) whatever the
    image, followed by the bytes of the image unchanged. *)
Theorem write_cim_layout (w h : Z) (p : list byte) :
  0 <= w < 2 ^ 32 -> 0 <= h < 2 ^ 32 ->
  exists c hdr,
    write_cim zlib_compress (mkImage (w, h) p) = Ok c /\
    zlib_decompress c = Some (hdr ++ p) /\
    length hdr = 12%nat /\
    struct_unpack_III hdr = Ok (w, h, 0).
Proof.
  intros Hw Hh.
  destruct (write_cim_parsed w h p Hw Hh) as (hdr & Hwr & Hun & Hz).
  exists (zlib_compress (hdr ++ p)), hdr.
  repeat split; try assumption.
  apply (struct_unpack_III_length _ _ _ _ Hun).
Qed.

End WriteRead.

(** ** The pixels that the converters produce *)

Lemma nth_error_skip4 {A : Type} (a b c d : A) (l : list A) (k j : nat) :
  nth_error (a :: b :: c :: d :: l) (4 * S k + j) = nth_error l (4 * k + j).
Proof.
  replace (4 * S k + j)%nat with (S (S (S (S (4 * k + j))))) by lia.
  reflexivity.
Qed.

Lemma grayscale_rgba_pixel (data : list byte) (k : nat) (v : byte) :
  nth_error data k = Some v ->
  nth_error (grayscale_rgba data) (4 * k + 0) = Some v /\
  nth_error (grayscale_rgba data) (4 * k + 1) = Some v /\
  nth_error (grayscale_rgba data) (4 * k + 2) = Some v /\
  nth_error (grayscale_rgba data) (4 * k + 3) = Some xff.
Proof.
  revert k. induction data as [|a d IH]; intros [|k] H; try discriminate.
  - injection H as <-. repeat split.
  - cbn [grayscale_rgba app]. rewrite !nth_error_skip4. apply IH, H.
Qed.

Lemma rgb888_rgba_pixel (data : list byte) (k : nat) (r g b : byte) :
  nth_error data (3 * k) = Some r ->
  nth_error data (3 * k + 1) = Some g ->
  nth_error data (3 * k + 2) = Some b ->
  nth_error (rgb888_rgba data) (4 * k + 0) = Some r /\
  nth_error (rgb888_rgba data) (4 * k + 1) = Some g /\
  nth_error (rgb888_rgba data) (4 * k + 2) = Some b /\
  nth_error (rgb888_rgba data) (4 * k + 3) = Some xff.
Proof.
  revert k. induction data as [|x|x y|x y z d IH] using list_ind_by3;
    intros [|k] Hr Hg Hb; try discriminate.
  - destruct (3 * S k)%nat as [|[|n]] eqn:E; try lia; discriminate.
  - replace (3 * S k + 2)%nat with (S (S (S (S (S (3 * k)))))) in Hb by lia.
    discriminate.
  - injection Hr as <-. injection Hg as <-. injection Hb as <-.
    repeat split.
  - cbn [rgb888_rgba app]. rewrite !nth_error_skip4.
    replace (3 * S k)%nat with (S (S (S (3 * k)))) in * by lia.
    apply IH; assumption.
Qed.

(** X10. [convert_grayscale_to_rgba] never fails: every input gives four
    bytes for each input byte, and pixel [k] is (v, v, v, 255) for the
    [k]-th input byte [v]. *)
Theorem grayscale_pixels (data : list byte) :
  exists rgba,
    convert_grayscale_to_rgba data = Ok rgba /\
    length rgba = (4 * length data)%nat /\
    forall (k : nat) (v : byte),
      nth_error data k = Some v ->
      nth_error rgba (4 * k + 0) = Some v /\
      nth_error rgba (4 * k + 1) = Some v /\
      nth_error rgba (4 * k + 2) = Some v /\
      nth_error rgba (4 * k + 3) = Some xff.
Proof.
  exists (grayscale_rgba data).
  split; [apply convert_grayscale_eq|].
  split; [apply grayscale_rgba_length|].
  intros k v. apply grayscale_rgba_pixel.
Qed.

(** X11. [convert_rgb888_to_rgba] on a whole number of pixels copies the
    three bytes of pixel [k] in order and appends 255. *)
Theorem rgb888_pixels (data : list byte) :
  len data mod 3 = 0 ->
  exists rgba,
    convert_rgb888_to_rgba data = Ok rgba /\
    length rgba = (4 * (length data / 3))%nat /\
    forall (k : nat) (r g b : byte),
      nth_error data (3 * k) = Some r ->
      nth_error data (3 * k + 1) = Some g ->
      nth_error data (3 * k + 2) = Some b ->
      nth_error rgba (4 * k + 0) = Some r /\
      nth_error rgba (4 * k + 1) = Some g /\
      nth_error rgba (4 * k + 2) = Some b /\
      nth_error rgba (4 * k + 3) = Some xff.
Proof.
  intros Hm. exists (rgb888_rgba data).
  apply (len_mod_nat data 3) in Hm; [|lia].
  rewrite convert_rgb888_eq, Hm.
  split; [reflexivity|]. split; [apply rgb888_rgba_length|].
  intros k r g b. apply rgb888_rgba_pixel.
Qed.

Lemma rgb888_pixels_witness :
  exists rgba,
    convert_rgb888_to_rgba [x0a; x0b; x0c; x1a; x1b; x1c] = Ok rgba /\
    length rgba = (4 * (length [x0a; x0b; x0c; x1a; x1b; x1c] / 3))%nat /\
    forall (k : nat) (r g b : byte),
      nth_error [x0a; x0b; x0c; x1a; x1b; x1c] (3 * k) = Some r ->
      nth_error [x0a; x0b; x0c; x1a; x1b; x1c] (3 * k + 1) = Some g ->
      nth_error [x0a; x0b; x0c; x1a; x1b; x1c] (3 * k + 2) = Some b ->
      nth_error rgba (4 * k + 0) = Some r /\
      nth_error rgba (4 * k + 1) = Some g /\
      nth_error rgba (4 * k + 2) = Some b /\
      nth_error rgba (4 * k + 3) = Some xff.
Proof.
  apply (rgb888_pixels [x0a; x0b; x0c; x1a; x1b; x1c]). reflexivity.
Defined.

(** ** No two payloads give the same pixels *)

Lemma expand5_high_bits (x : Z) : 0 <= x < 32 -> expand5 x / 8 = x.
Proof.
  intros Hx.
  assert (H : forallb (fun n => expand5 (Z.of_nat n) / 8 =? Z.of_nat n)
                      (seq 0 32) = true) by (vm_compute; reflexivity).
  rewrite forallb_forall in H.
  specialize (H (Z.to_nat x)). rewrite Z2Nat.id in H by lia.
  apply Z.eqb_eq, H, in_seq. lia.
Qed.

Lemma expand6_high_bits (x : Z) : 0 <= x < 64 -> expand6 x / 4 = x.
Proof.
  intros Hx.
  assert (H : forallb (fun n => expand6 (Z.of_nat n) / 4 =? Z.of_nat n)
                      (seq 0 64) = true) by (vm_compute; reflexivity).
  rewrite forallb_forall in H.
  specialize (H (Z.to_nat x)). rewrite Z2Nat.id in H by lia.
  apply Z.eqb_eq, H, in_seq. lia.
Qed.

Lemma word_be_range (hi lo : byte) : 0 <= word_be hi lo < 65536.
Proof.
  unfold word_be. pose proof (Z_of_byte_range hi).
  pose proof (Z_of_byte_range lo). lia.
Qed.

Lemma word_be_inj (hi lo hi' lo' : byte) :
  word_be hi lo = word_be hi' lo' -> hi = hi' /\ lo = lo'.
Proof.
  unfold word_be. intros H.
  pose proof (Z_of_byte_range hi). pose proof (Z_of_byte_range lo).
  pose proof (Z_of_byte_range hi'). pose proof (Z_of_byte_range lo').
  assert (Z_of_byte hi = Z_of_byte hi' /\ Z_of_byte lo = Z_of_byte lo')
    as [E1 E2] by lia.
  split; [rewrite <- (byte_of_Z_of_byte hi), E1 | rewrite <- (byte_of_Z_of_byte lo), E2];
    apply byte_of_Z_of_byte.
Qed.

(** The RGB565 word is read back from the high bits of its pixel. *)
Lemma rgb565_expand_inj (hi lo hi' lo' : byte) :
  map byte_of_Z (rgb565_expand (word_be hi lo)) =
  map byte_of_Z (rgb565_expand (word_be hi' lo')) ->
  hi = hi' /\ lo = lo'.
Proof.
  intros H. apply word_be_inj.
  pose proof (rgb565_expand_range hi lo) as R1.
  pose proof (rgb565_expand_range hi' lo') as R2.
  pose proof (word_be_range hi lo) as W1.
  pose proof (word_be_range hi' lo') as W2.
  set (w := word_be hi lo) in *. set (w' := word_be hi' lo') in *.
  unfold rgb565_expand in *. cbn [map] in H.
  inversion R1 as [|? ? Rr1 R1']; subst. inversion R1' as [|? ? Rg1 R1'']; subst.
  inversion R1'' as [|? ? Rb1 _]; subst.
  inversion R2 as [|? ? Rr2 R2']; subst. inversion R2' as [|? ? Rg2 R2'']; subst.
  inversion R2'' as [|? ? Rb2 _]; subst.
  injection H as Hr Hg Hb.
  apply (f_equal Z_of_byte) in Hr, Hg, Hb.
  rewrite !Z_of_byte_of_Z in Hr, Hg, Hb by assumption.
  assert (Fr : 0 <= field_r w < 32 /\ 0 <= field_r w' < 32).
  { unfold field_r. change (2 ^ 11) with 2048.
    Z.to_euclidean_division_equations. lia. }
  assert (Fg : 0 <= field_g w < 64 /\ 0 <= field_g w' < 64).
  { unfold field_g. change (2 ^ 5) with 32. change (2 ^ 6) with 64.
    Z.to_euclidean_division_equations. lia. }
  assert (Fb : 0 <= field_b w < 32 /\ 0 <= field_b w' < 32).
  { unfold field_b. change (2 ^ 5) with 32.
    Z.to_euclidean_division_equations. lia. }
  assert (Er : field_r w = field_r w').
  { rewrite <- (expand5_high_bits (field_r w)), Hr by tauto.
    apply expand5_high_bits. tauto. }
  assert (Eg : field_g w = field_g w').
  { rewrite <- (expand6_high_bits (field_g w)), Hg by tauto.
    apply expand6_high_bits. tauto. }
  assert (Eb : field_b w = field_b w').
  { rewrite <- (expand5_high_bits (field_b w)), Hb by tauto.
    apply expand5_high_bits. tauto. }
  clear - Er Eg Eb W1 W2. unfold field_r, field_g, field_b in *.
  change (2 ^ 11) with 2048 in *. change (2 ^ 5) with 32 in *.
  change (2 ^ 6) with 64 in *.
  Z.to_euclidean_division_equations. lia.
Qed.

Lemma mod_step (n k : nat) : ((k + n) mod k = n mod k)%nat.
Proof.
  replace (k + n)%nat with (n + 1 * k)%nat by lia.
  apply Nat.Div0.mod_add.
Qed.

Lemma rgb565_rgba_inj (d1 d2 : list byte) :
  (length d1 mod 2 = 0)%nat -> (length d2 mod 2 = 0)%nat ->
  rgb565_rgba d1 = rgb565_rgba d2 -> d1 = d2.
Proof.
  revert d2. induction d1 as [|a|a b d IH] using list_ind_by2;
    intros d2 H1 H2 H.
  - destruct d2 as [|x [|y d2]]; [reflexivity | discriminate H2 |].
    cbn [rgb565_rgba] in H.
    destruct (rgb565_expand_shape x y) as (? & ? & ? & E).
    rewrite E in H. discriminate H.
  - discriminate H1.
  - destruct d2 as [|x [|y d2]]; [|discriminate H2|].
    + cbn [rgb565_rgba] in H.
      destruct (rgb565_expand_shape a b) as (? & ? & ? & E).
      rewrite E in H. discriminate H.
    + cbn [rgb565_rgba] in H.
      change (length (a :: b :: d)) with (2 + length d)%nat in H1.
      change (length (x :: y :: d2)) with (2 + length d2)%nat in H2.
      rewrite mod_step in H1, H2.
      assert (Hpx : map byte_of_Z (rgb565_expand (word_be a b)) =
                    map byte_of_Z (rgb565_expand (word_be x y)) /\
                    rgb565_rgba d = rgb565_rgba d2).
      { destruct (rgb565_expand_shape a b) as (r1 & g1 & b1 & E1).
        destruct (rgb565_expand_shape x y) as (r2 & g2 & b2 & E2).
        rewrite E1, E2 in *. cbn [app] in H.
        injection H as -> -> -> Hrest. auto. }
      destruct Hpx as [Hpx Hrest].
      apply rgb565_expand_inj in Hpx. destruct Hpx as [-> ->].
      f_equal. f_equal. apply IH; assumption.
Qed.

Lemma rgb888_rgba_inj (d1 d2 : list byte) :
  (length d1 mod 3 = 0)%nat -> (length d2 mod 3 = 0)%nat ->
  rgb888_rgba d1 = rgb888_rgba d2 -> d1 = d2.
Proof.
  revert d2. induction d1 as [|a|a b|a b c d IH] using list_ind_by3;
    intros d2 H1 H2 H; try discriminate H1.
  - destruct d2 as [|x [|y [|z d2]]]; try discriminate; reflexivity.
  - destruct d2 as [|x [|y [|z d2]]]; try discriminate.
    cbn [rgb888_rgba app] in H. injection H as -> -> -> Hrest.
    change (length (x :: y :: z :: d)) with (3 + length d)%nat in H1.
    change (length (x :: y :: z :: d2)) with (3 + length d2)%nat in H2.
    rewrite mod_step in H1, H2.
    do 3 f_equal. apply IH; assumption.
Qed.

Lemma grayscale_rgba_inj (d1 d2 : list byte) :
  grayscale_rgba d1 = grayscale_rgba d2 -> d1 = d2.
Proof.
  revert d2. induction d1 as [|a d IH]; intros [|x d2] H;
    try discriminate; [reflexivity|].
  cbn [grayscale_rgba app] in H. injection H as -> _ _ Hrest.
  f_equal. apply IH, Hrest.
Qed.

(** X12. The conversion loses nothing: for each of the four formats, two
    payloads that are converted to the same RGBA bytes are the same
    payload.  (For RGB565 the five or six bits of each field are the
    high bits of the expanded channel.) *)
Theorem unpack_injective (fmt : Z) (d1 d2 rgba : list byte) :
  unpack fmt d1 = Some (Ok rgba) ->
  unpack fmt d2 = Some (Ok rgba) ->
  d1 = d2.
Proof.
  intros H1 H2.
  destruct (unpack_Ok_length _ _ _ H1) as (Hf & _).
  each_format Hf; unfold unpack in H1, H2; cbn [Z.eqb Pos.eqb] in *.
  - congruence.
  - rewrite convert_rgb888_eq in H1, H2.
    destruct (Nat.eqb_spec (length d1 mod 3) 0) as [E1|]; [|discriminate].
    destruct (Nat.eqb_spec (length d2 mod 3) 0) as [E2|]; [|discriminate].
    apply rgb888_rgba_inj; congruence.
  - rewrite convert_rgb565_eq in H1, H2.
    destruct (Nat.eqb_spec (length d1 mod 2) 0) as [E1|]; [|discriminate].
    destruct (Nat.eqb_spec (length d2 mod 2) 0) as [E2|]; [|discriminate].
    apply rgb565_rgba_inj; congruence.
  - rewrite convert_grayscale_eq in H1, H2.
    apply grayscale_rgba_inj. congruence.
Qed.

Lemma unpack_injective_witness : [xf8; x1f] = [xf8; x1f].
Proof.
  apply (unpack_injective 2 [xf8; x1f] [xf8; x1f] [xff; x00; xff; xff]);
    reflexivity.
Defined.

(** ** The format prompt *)

Lemma ask_for_format_choice (line : string) :
  (In (strip line) ["0"; "1"; "2"; "3"]%string /\
   snd (ask_for_format line) = int_of_digits (strip line)) \/
  (~ In (strip line) ["0"; "1"; "2"; "3"]%string /\
   snd (ask_for_format line) = 0).
Proof.
  unfold ask_for_format.
  destruct (existsb (String.eqb (strip line)) ["0"; "1"; "2"; "3"]%string)
    eqn:E.
  - left. split; [|reflexivity].
    apply existsb_exists in E. destruct E as (s & Hs & Heq).
    apply String.eqb_eq in Heq. rewrite Heq. exact Hs.
  - right. split; [|reflexivity]. intros Hin.
    assert (existsb (String.eqb (strip line)) ["0"; "1"; "2"; "3"]%string
            = true); [|congruence].
    apply existsb_exists. exists (strip line).
    split; [exact Hin | apply String.eqb_refl].
Qed.

Lemma ask_for_format_range (line : string) :
  In (snd (ask_for_format line)) [0; 1; 2; 3].
Proof.
  destruct (ask_for_format_choice line) as [[Hin ->]|[_ ->]].
  - cbn [In] in Hin.
    destruct Hin as [<-|[<-|[<-|[<-|[]]]]]; cbn; auto.
  - cbn. auto.
Qed.

Lemma read_cim_unsupported_only (zlib_decompress : list byte -> option (list byte))
    (c : list byte) (fmt : Z) :
  In fmt [0; 1; 2; 3] ->
  read_cim zlib_decompress c fmt <> UnsupportedFormat.
Proof.
  intros Hf.
  destruct (read_cim_cases zlib_decompress c fmt)
    as [[Hz Hr]|[(data & Hz & Hl & Hr)|(hdr & payload & w & h & tag & Hz & Hh)]];
    try congruence.
  rewrite (read_cim_parsed_eq _ c hdr payload w h tag fmt Hz Hh). cbv zeta.
  assert (Hne : forall px, unpack fmt px <> None).
  { intros px Hn. apply unpack_None_iff in Hn. contradiction. }
  destruct (_ <? _).
  - destruct (unpack fmt _) as [[r|e]|] eqn:E; try discriminate.
    apply Hne in E. contradiction.
  - destruct (unpack fmt _) as [[r|e]|] eqn:E; try discriminate.
    apply Hne in E. contradiction.
Qed.

(** X13. Whatever is typed at the prompt, [ask_for_format] returns 0, 1, 2
    or 3; so [read_cim], called with the format it returns, never takes
    its "Unsupported format" branch and never uses the default of
    [bpp_map.get]. *)
Theorem prompted_format_is_supported
    (zlib_decompress : list byte -> option (list byte))
    (line : string) (c : list byte) :
  In (snd (ask_for_format line)) [0; 1; 2; 3] /\
  read_cim zlib_decompress c (snd (ask_for_format line)) <> UnsupportedFormat.
Proof.
  split; [apply ask_for_format_range|].
  apply read_cim_unsupported_only, ask_for_format_range.
Qed.

Lemma lstrip_spaces (pre l : list ascii) :
  forallb is_space pre = true -> lstrip (pre ++ l) = lstrip l.
Proof.
  induction pre as [|c pre IH]; intros H; [reflexivity|].
  cbn [forallb] in H. apply andb_true_iff in H. destruct H as [Hc Hp].
  cbn [app lstrip]. rewrite Hc. apply IH, Hp.
Qed.

Lemma lstrip_all_spaces (l : list ascii) :
  forallb is_space l = true -> lstrip l = [].
Proof.
  intros H. rewrite <- (app_nil_r l). rewrite lstrip_spaces by exact H.
  reflexivity.
Qed.

Lemma lstrip_app (l post : list ascii) :
  lstrip l <> [] -> lstrip (l ++ post) = lstrip l ++ post.
Proof.
  induction l as [|c l IH]; intros H; [contradiction H; reflexivity|].
  cbn [app lstrip] in *. destruct (is_space c); [apply IH, H | reflexivity].
Qed.

Lemma lstrip_nil_spaces (l : list ascii) :
  lstrip l = [] -> forallb is_space l = true.
Proof.
  induction l as [|c l IH]; intros H; [reflexivity|].
  cbn [lstrip forallb] in *. destruct (is_space c); [apply IH, H | discriminate].
Qed.

Lemma strip_padding (pre s post : list ascii) :
  forallb is_space pre = true -> forallb is_space post = true ->
  strip (string_of_list_ascii (pre ++ s ++ post)) =
  strip (string_of_list_ascii s).
Proof.
  intros Hpre Hpost. unfold strip.
  rewrite !list_ascii_of_string_of_list_ascii. f_equal. f_equal.
  rewrite lstrip_spaces by exact Hpre.
  assert (Hrev : forallb is_space (rev post) = true).
  { apply forallb_forall. intros x Hx. apply in_rev in Hx.
    rewrite forallb_forall in Hpost. apply Hpost, Hx. }
  destruct (lstrip s) as [|a l] eqn:E.
  - rewrite (lstrip_all_spaces (s ++ post)); [reflexivity|].
    rewrite forallb_app. apply andb_true_iff.
    split; [apply lstrip_nil_spaces, E | exact Hpost].
  - rewrite lstrip_app by congruence. rewrite E.
    rewrite rev_app_distr. apply lstrip_spaces, Hrev.
Qed.

(** X14. White space around the answer is ignored: a line padded on either
    side with characters for which [isspace] holds gets the same prompt
    output and the same format as the line without the padding. *)
Theorem ask_for_format_ignores_padding (pre s post : list ascii) :
  forallb is_space pre = true -> forallb is_space post = true ->
  ask_for_format (string_of_list_ascii (pre ++ s ++ post)) =
  ask_for_format (string_of_list_ascii s).
Proof.
  intros Hpre Hpost. unfold ask_for_format.
  rewrite (strip_padding pre s post Hpre Hpost). reflexivity.
Qed.

Lemma ask_for_format_ignores_padding_witness :
  ask_for_format
    (string_of_list_ascii
       (list_ascii_of_string "  " ++ list_ascii_of_string "2"
        ++ list_ascii_of_string " ")) =
  ask_for_format (string_of_list_ascii (list_ascii_of_string "2")).
Proof.
  apply (ask_for_format_ignores_padding
           (list_ascii_of_string "  ") (list_ascii_of_string "2")
           (list_ascii_of_string " ")); reflexivity.
Defined.

(** ** The batch driver *)

Lemma process_file_read (fmt fmt' : Z) (f f' : string) :
  process_file fmt f = ReadCim f' fmt' ->
  f' = f /\ fmt' = fmt /\ endswith (lower f) ".cim" = true.
Proof.
  unfold process_file.
  destruct (endswith (lower f) ".cim"); [|destruct (endswith (lower f) ".png")];
    intros H; try discriminate.
  injection H as <- <-. auto.
Qed.

Lemma main_batch (argv : list string) (line : string) :
  (2 <= length argv)%nat ->
  let files := skipn 1 argv in
  (existsb (fun f => endswith (lower f) ".cim") files = true /\
   main argv line =
   AskFormat (fst (ask_for_format line))
   :: map (process_file (snd (ask_for_format line))) files ++ [WaitEnter]) \/
  (existsb (fun f => endswith (lower f) ".cim") files = false /\
   main argv line = map (process_file 0) files ++ [WaitEnter]).
Proof.
  intros Hl files. unfold main.
  destruct (Nat.ltb_spec (length argv) 2) as [Hlt|_]; [lia|].
  fold files.
  destruct (existsb (fun f => endswith (lower f) ".cim") files).
  - left. split; [reflexivity|].
    destruct (ask_for_format line) as [printed fmt]. reflexivity.
  - right. split; reflexivity.
Qed.



(** X16. [main] asks for the format exactly when it is going to call
    [read_cim]: a batch without a ".cim" argument never shows the prompt,
    and a prompt is always followed by at least one [read_cim]. *)
Theorem main_prompts_iff_reads (argv : list string) (line : string) :
  (exists printed, In (AskFormat printed) (main argv line)) <->
  (exists f fmt, In (ReadCim f fmt) (main argv line)).
Proof.
  destruct (Nat.ltb_spec (length argv) 2) as [Hlt|Hge].
  - unfold main. destruct (Nat.ltb_spec (length argv) 2) as [_|]; [|lia].
    split.
    + intros (p & [H|[H|[]]]); discriminate H.
    + intros (f & fmt & [H|[H|[]]]); discriminate H.
  - destruct (main_batch argv line Hge) as [[Hex Hm]|[Hex Hm]]; rewrite Hm.
    + split.
      * intros _. apply existsb_exists in Hex.
        destruct Hex as (f & Hf & Hend).
        exists f, (snd (ask_for_format line)). right.
        apply in_or_app. left. apply in_map_iff. exists f.
        split; [|exact Hf]. unfold process_file. rewrite Hend. reflexivity.
      * intros _. eexists. left. reflexivity.
    + split.
      * intros (p & Hin). apply in_app_or in Hin.
        destruct Hin as [Hin|[H|[]]]; [|discriminate H].
        apply in_map_iff in Hin. destruct Hin as (f' & Hp & _).
        unfold process_file in Hp.
        destruct (endswith (lower f') ".cim");
          [|destruct (endswith (lower f') ".png")]; discriminate Hp.
      * intros (f & fmt & Hin). apply in_app_or in Hin.
        destruct Hin as [Hin|[H|[]]]; [|discriminate H].
        apply in_map_iff in Hin. destruct Hin as (f' & Hp & Hf').
        apply process_file_read in Hp. destruct Hp as (<- & -> & Hend).
        assert (existsb (fun f => endswith (lower f) ".cim") (skipn 1 argv)
                = true); [|congruence].
        apply existsb_exists. exists f. auto.
Qed.

(** ** Examples on concrete files *)

Lemma reencode_is_stable_witness :
  exists c',
    write_cim stored_compress
      (mkImage (2, 2) (grayscale_rgba [x01; x02; x03; x04])) = Ok c' /\
    read_cim stored_decompress c' 0 =
    Converted false 2 2 (grayscale_rgba [x01; x02; x03; x04]).
Proof.
  apply (reencode_is_stable stored_compress stored_decompress
           (fun d => eq_refl)
           (cim_file 2 3 0 [x01; x02; x03; x04; x05]) 3 true 2 2
           (grayscale_rgba [x01; x02; x03; x04])).
  - reflexivity.
  - reflexivity.
Defined.

Lemma written_file_read_with_other_format_witness :
  let p := [x01; x02; x03; x04; x05; x06; x07; x08] in
  exists c,
    write_cim stored_compress (mkImage (2, 1) p) = Ok c /\
    read_cim stored_decompress c 3 = Converted false 2 1 (grayscale_rgba p) /\
    len (grayscale_rgba p) = 4 * (4 * 2 * 1) /\
    read_cim stored_decompress c 2 = Converted false 2 1 (rgb565_rgba p) /\
    len (rgb565_rgba p) = 4 * (2 * 2 * 1) /\
    read_cim stored_decompress c 1 =
      (if (2 * 1) mod 3 =? 0 then Converted false 2 1 (rgb888_rgba p)
       else CreateFailed IndexError).
Proof.
  apply (written_file_read_with_other_format stored_compress stored_decompress
           (fun d => eq_refl) 2 1
           [x01; x02; x03; x04; x05; x06; x07; x08]).
  - lia.
  - lia.
  - reflexivity.
Defined.

Lemma write_cim_layout_witness :
  exists c hdr,
    write_cim stored_compress (mkImage (1, 1) [x0a; x0b; x0c; x0d]) = Ok c /\
    stored_decompress c = Some (hdr ++ [x0a; x0b; x0c; x0d]) /\
    length hdr = 12%nat /\
    struct_unpack_III hdr = Ok (1, 1, 0).
Proof.
  apply (write_cim_layout stored_compress stored_decompress
           (fun d => eq_refl) 1 1 [x0a; x0b; x0c; x0d]).
  - lia.
  - lia.
Defined.
